(** * telegram_logger: the output pipeline (handlers/output_handler.py)

    A shallow embedding of [OutputHandler]: the forwarding and deletion
    filters, the deletion rate limiter, the retrying store lookup, the
    formatter and the media delivery fallback chain, followed by the
    properties the specification states about them.

    Conventions.
    - A Python [str] is a list of Unicode code points ([pystr]); [len] is
      [length], [s[:n]] is [take n s], [s[n:]] is [drop n s].
    - A [datetime] is an integer number of microseconds; a [timedelta] is a
      difference of such numbers.
    - Every collaborator (clock, store, client, log sender, media helpers) is
      an oracle of the [World]: it is asked at a tick, the number of
      collaborator calls made before it, so that the same call may answer
      differently at different times.  Each call is recorded, with its answer,
      as an [Event].
    - Failures are Python exceptions derived from [Exception], the class every
      handler of the module catches.
    - The objects of Telethon are taken as Telethon builds them: a media
      object has no [attributes] of its own, an edited message is an
      instance of the class of new messages, and a deletion event has no
      [peer]. *)

From Stdlib Require Import ZArith List Bool Lia Ascii String DecimalString Decimal.
From Stdlib Require Import Sorted.
From Stdlib Require DecimalZ DecimalPos.
From stdpp Require Import base gmap sets list.

Local Open Scope Z_scope.

(* ================================================================== *)
(** * Python values *)
(* ================================================================== *)

(** A Python string, as the list of its code points. *)
Definition pystr : Type := list Z.

(** An ASCII literal. *)
Fixpoint lit (s : string) : pystr :=
  match s with
  | EmptyString => []
  | String a s' => Z.of_N (N_of_ascii a) :: lit s'
  end.
Arguments lit s%_string_scope.

(** [str(n)] for an [int]. *)
Definition str_int (n : Z) : pystr := lit (NilZero.string_of_int (Z.to_int n)).

(** [int(s)] for a decimal literal; [None] stands for [ValueError]. *)
Definition int_of_string (s : string) : option Z :=
  Z.of_int <$> NilZero.int_of_string s.

(** [s.startswith(p)]. *)
Definition startswith (p s : pystr) : bool := bool_decide (take (length p) s = p).

(** [s.replace(c, '\\' + c)] for a one-character [c]. *)
Definition replace_escape (c : Z) (s : pystr) : pystr :=
  flat_map (fun x => if x =? c then [92; c] else [x]) s.

(** Truthiness of [Optional[int]], [Optional[str]] and of an optional object. *)
Definition truthy_int (x : option Z) : bool :=
  match x with Some v => negb (v =? 0) | None => false end.

Definition truthy_str (x : option pystr) : bool :=
  match x with Some (_ :: _) => true | _ => false end.

Definition is_some {A} (x : option A) : bool :=
  match x with Some _ => true | None => false end.

(** [x in s] for a set of ints; [None in s] is [False]. *)
Definition mem (x : Z) (s : gset Z) : bool := bool_decide (x ∈ s).

Definition mem_opt (x : option Z) (s : gset Z) : bool :=
  match x with Some v => mem v s | None => false end.

(** Exceptions: [FileNotFoundError] has handlers of its own, every other
    exception is known by its class name and message. *)
Inductive exn : Type :=
| FileNotFoundError (msg : pystr)
| Exception (name msg : pystr).

Definition exn_name (e : exn) : pystr :=
  match e with
  | FileNotFoundError _ => lit "FileNotFoundError"
  | Exception name _ => name
  end.

Definition exn_str (e : exn) : pystr :=
  match e with
  | FileNotFoundError msg => msg
  | Exception _ msg => msg
  end.

(** The answer of a call: a value or an exception. *)
Inductive Res (A : Type) : Type :=
| Ok (a : A)
| Exn (e : exn).
Arguments Ok {A} a.
Arguments Exn {A} e.

(* ================================================================== *)
(** * Data model *)
(* ================================================================== *)

(** What the handler reads of Telethon's objects. *)
Module TL.

Inductive DocumentAttribute : Type :=
| DocumentAttributeFilename (file_name : pystr)
| DocumentAttributeSticker
| DocumentAttributeOther.

(** A media object.  [attributes] is what [getattr(media, 'attributes', ...)]
    finds: [None] when the object has no such attribute, which is the case
    of every media class of Telethon: a [MessageMediaDocument] keeps the
    attributes of its file on [media.document].  [document] is that list,
    [None] for media other than a document; the handler never reads it. *)
Record MessageMedia : Type := {
  type_name : pystr;
  attributes : option (list DocumentAttribute);
  document : option (list DocumentAttribute)
}.

Inductive Peer : Type :=
| PeerUser (user_id : Z)
| PeerChat (chat_id : Z)
| PeerChannel (channel_id : Z).

(** [is_channel] is the flag Telethon sets on broadcast channels and
    supergroups; [is_group] is set on basic groups and supergroups.  The
    handler reads [is_private], [is_group] and [out] only. *)
Record Message : Type := {
  id : Z;
  chat_id : option Z;
  text : option pystr;
  date : option Z;
  edit_date : option Z;
  reply_to_msg_id : option Z;
  is_private : bool;
  is_group : bool;
  is_channel : bool;
  out : bool;
  media : option MessageMedia;
  noforwards : bool
}.

End TL.

(** The archived message of [data.models], as the handler reads it. *)
Module Models.

Record Message : Type := {
  id : Z;
  from_id : Z;
  chat_id : Z;
  text : option pystr;
  date : option Z;
  edit_date : option Z;
  reply_to_msg_id : option Z;
  is_private : bool;
  media_type : option pystr;
  media_path : option pystr;
  is_restricted : bool
}.

End Models.

(** [events.NewMessage.Event] and [events.MessageEdited.Event]. *)
Record MessageEvent : Type := {
  message : option TL.Message
}.

(** [events.MessageDeleted.Event].  [peer] is the attribute that line 245
    reads: the event class of Telethon has no attribute of this name
    ([None]: reading it raises [AttributeError]); [Some p] is an event
    object that carries one, of value [p]. *)
Record DeletedEvent : Type := {
  deleted_ids : list Z;
  chat_id : option Z;
  peer : option (option TL.Peer)
}.

Inductive InboundEvent : Type :=
| NewMessage (e : MessageEvent)
| MessageEdited (e : MessageEvent)
| MessageDeleted (e : DeletedEvent)
| OtherEvent (type_name : pystr).

(** The second argument of [_format_output_message]: a live Telethon
    message, an archived one, or an object of another type. *)
Inductive MessageData : Type :=
| Live (m : TL.Message)
| Archived (m : Models.Message)
| Invalid (type_repr : pystr).

(** The context manager of [retrieve_media_as_file]. *)
Record MediaContext : Type := {
  ctx_path : pystr;
  ctx_restricted : bool
}.

(** The handler's configuration.  The four flags say whether [client],
    [log_sender], [formatter] and [restricted_media_handler] are set. *)
Record OutputHandler : Type := {
  log_chat_id : Z;
  ignored_ids : gset Z;
  forward_user_ids : gset Z;
  forward_group_ids : gset Z;
  deletion_rate_limit_threshold : Z;
  deletion_rate_limit_window : Z;
  deletion_pause_duration : Z;
  client : bool;
  log_sender : bool;
  formatter : bool;
  restricted_media_handler : bool
}.

(** A [timedelta] of [n] seconds, in microseconds. *)
Definition timedelta_seconds (n : Z) : Z := n * 1000000.

(** [timedelta(seconds=n)] for an [int]: the whole days of the duration,
    [n // 86400], must be of magnitude 999999999 at most; [None] stands for
    the [OverflowError] raised otherwise. *)
Definition timedelta (n : Z) : option Z :=
  if (-999999999 <=? n / 86400) && (n / 86400 <=? 999999999)
  then Some (timedelta_seconds n)
  else None.

(** The attributes a handler holds once [__init__] and a [set_client] that
    found a client and a log chat are through: the filter sets are built
    from the optional lists, the two durations are those given, the helpers
    are present. *)
Definition configured (log_chat : Z) (ignored : gset Z)
    (forward_users forward_groups : option (list Z))
    (threshold window pause : Z) : OutputHandler :=
  {| log_chat_id := log_chat;
     ignored_ids := ignored;
     forward_user_ids :=
       match forward_users with Some (x :: l) => list_to_set (x :: l) | _ => ∅ end;
     forward_group_ids :=
       match forward_groups with Some (x :: l) => list_to_set (x :: l) | _ => ∅ end;
     deletion_rate_limit_threshold := threshold;
     deletion_rate_limit_window := window;
     deletion_pause_duration := pause;
     client := true;
     log_sender := true;
     formatter := true;
     restricted_media_handler := true |}.

(** [OutputHandler.__init__], followed by such a [set_client]: the rate
    limits are given in seconds and turned into durations (lines 51-52);
    [None] stands for the [OverflowError] of a duration that cannot be
    built. *)
Definition init (log_chat : Z) (ignored : gset Z)
    (forward_users forward_groups : option (list Z))
    (threshold window pause : Z) : option OutputHandler :=
  match timedelta window with
  | Some window' =>
      match timedelta pause with
      | Some pause' =>
          Some (configured log_chat ignored forward_users forward_groups
                  threshold window' pause')
      | None => None
      end
  | None => None
  end.

(** The defaults of [__init__]: 5 events per 10 seconds, 5 seconds of pause. *)
Definition init_default (log_chat : Z) (ignored : gset Z)
    (forward_users forward_groups : option (list Z)) : option OutputHandler :=
  init log_chat ignored forward_users forward_groups 5 10 5.

(** The guard of [process]. *)
Definition helpers_ready (h : OutputHandler) : bool :=
  client h && log_sender h && formatter h && restricted_media_handler h.

(** The mutable state: the two rate limiter fields of the handler, and the
    local variable [media_context] of [_send_message_with_media], kept here so
    that a [finally] block reads it on every path. *)
Record Store : Type := {
  _deletion_timestamps : list Z;
  _rate_limit_paused_until : option Z;
  media_context : option MediaContext
}.

Definition initial_store : Store :=
  {| _deletion_timestamps := []; _rate_limit_paused_until := None;
     media_context := None |}.

(* ================================================================== *)
(** * Collaborators *)
(* ================================================================== *)

(** The outside world.  Functions with a [nat] argument are asked at a tick;
    the others depend on their arguments only. *)
Record World : Type := {
  (** [BaseHandler._get_sender_id(message)] *)
  get_sender_id : TL.Message -> Res Z;
  (** [datetime.now(timezone.utc)] *)
  utcnow : nat -> Z;
  (** [self.db.get_message_by_id(id)] *)
  get_message_by_id : nat -> Z -> Res (option Models.Message);
  (** [create_mention(client, entity_id, msg_id)] *)
  create_mention : nat -> Z -> Z -> Res pystr;
  (** [self.log_sender.send_message(text, file=..., parse_mode="markdown")] *)
  send_message : nat -> pystr -> option pystr -> Res unit;
  (** [self.client.send_file(log_chat_id, file, caption=, reply_to=)] *)
  send_file : nat -> pystr -> pystr -> option Z -> Res unit;
  (** [retrieve_media_as_file(path, is_restricted)] and the [__enter__] and
      [__exit__] of the context manager it returns *)
  retrieve_media_as_file : nat -> pystr -> bool -> Res unit;
  media_enter : nat -> MediaContext -> Res pystr;
  media_exit : nat -> MediaContext -> Res unit;
  (** [self.restricted_media_handler.prepare_media(message)] and the
      [__aenter__] and [__aexit__] of the manager it returns; [__aexit__] is
      told the exception that left the block, and answers whether it
      swallows it *)
  prepare_media : nat -> TL.Message -> Res unit;
  prepared_aenter : nat -> Res (option pystr);
  prepared_aexit : nat -> option exn -> Res bool;
  (** [d.astimezone(timezone.utc).strftime('%Y-%m-%d %H:%M:%S UTC')] *)
  strftime_utc : Z -> pystr;
  (** [str(delta.total_seconds())] *)
  total_seconds_str : Z -> pystr
}.

(** One collaborator call, with what it answered. *)
Inductive Event : Type :=
| EvNow (now : Z)
| EvSleep (milliseconds : Z)
| EvGetMessage (id : Z) (r : Res (option Models.Message))
| EvMention (entity_id msg_id : Z) (r : Res pystr)
| EvSendMessage (text : pystr) (file : option pystr) (r : Res unit)
| EvSendFile (file caption : pystr) (reply_to : option Z) (r : Res unit)
| EvRetrieve (path : pystr) (restricted : bool) (r : Res unit)
| EvEnter (ctx : MediaContext) (r : Res pystr)
| EvExit (ctx : MediaContext) (r : Res unit)
| EvPrepare (msg_id : Z) (r : Res unit)
| EvAEnter (r : Res (option pystr))
| EvAExit (exc : option exn) (r : Res bool).

(* ================================================================== *)
(** * Python control flow *)
(* ================================================================== *)

(** How a statement ends: it falls through to the next one, it executes a
    [return], or it raises. *)
Inductive Outcome (R A : Type) : Type :=
| Normal (a : A)
| Returned (r : R)
| Raised (e : exn).
Arguments Normal {R A} a.
Arguments Returned {R A} r.
Arguments Raised {R A} e.

(** A block of statements inside a function returning [R]: from the world,
    the store and the tick to an outcome, the new store and the calls made. *)
Definition M (R A : Type) : Type :=
  World -> Store -> nat -> Outcome R A * Store * list Event.

(** A whole function: it returns or raises. *)
Definition Fn (R : Type) : Type :=
  World -> Store -> nat -> Res R * Store * list Event.

Definition ret {R A} (a : A) : M R A := fun _ s _ => (Normal a, s, []).

Definition bind {R A B} (c : M R A) (k : A -> M R B) : M R B :=
  fun w s t =>
    match c w s t with
    | (Normal a, s1, e1) =>
        let '(o, s2, e2) := k a w s1 (length e1 + t)%nat in (o, s2, e1 ++ e2)
    | (Returned r, s1, e1) => (Returned r, s1, e1)
    | (Raised e, s1, e1) => (Raised e, s1, e1)
    end.

#[global] Instance M_ret {R} : MRet (M R) := @ret R.
#[global] Instance M_bind {R} : MBind (M R) := fun A B k c => bind c k.

(** [pass], [return v], [raise e]. *)
Definition pass {R} : M R unit := ret tt.
Definition return_ {R A} (r : R) : M R A := fun _ s _ => (Returned r, s, []).
Definition raise {R A} (e : exn) : M R A := fun _ s _ => (Raised e, s, []).

(** [try: c  except Exception as e: handler e]. *)
Definition try_except {R A} (c : M R A) (handler : exn -> M R A) : M R A :=
  fun w s t =>
    match c w s t with
    | (Raised e, s1, e1) =>
        let '(o, s2, e2) := handler e w s1 (length e1 + t)%nat in (o, s2, e1 ++ e2)
    | other => other
    end.

(** [try: c  finally: f]: [f] runs however [c] ended, and what [c] did stands
    unless [f] itself returns or raises. *)
Definition finally_ {R A} (c : M R A) (f : M R unit) : M R A :=
  fun w s t =>
    let '(o, s1, e1) := c w s t in
    match f w s1 (length e1 + t)%nat with
    | (Normal _, s2, e2) => (o, s2, e1 ++ e2)
    | (Returned r, s2, e2) => (Returned r, s2, e1 ++ e2)
    | (Raised e, s2, e2) => (Raised e, s2, e1 ++ e2)
    end.

(** [for x in l: body x]. *)
Fixpoint for_each {R A} (l : list A) (body : A -> M R unit) : M R unit :=
  match l with
  | [] => pass
  | x :: l' => body x ;; for_each l' body
  end.

(** A function body ends with a [return] or an exception. *)
Definition def_ {R} (body : M R Empty_set) : Fn R :=
  fun w s t =>
    match body w s t with
    | (Normal a, _, _) => match a with end
    | (Returned r, s1, e1) => (Ok r, s1, e1)
    | (Raised e, s1, e1) => (Exn e, s1, e1)
    end.

(** Calling a function, awaiting a coroutine. *)
Definition call {R A} (f : Fn A) : M R A :=
  fun w s t =>
    match f w s t with
    | (Ok a, s1, e1) => (Normal a, s1, e1)
    | (Exn e, s1, e1) => (Raised e, s1, e1)
    end.

(** A function of the world that touches neither store nor collaborators. *)
Definition eval {R A} (f : World -> Res A) : M R A :=
  fun w s _ =>
    match f w with
    | Ok a => (Normal a, s, [])
    | Exn e => (Raised e, s, [])
    end.

Definition render {R A} (f : World -> A) : M R A :=
  fun w s _ => (Normal (f w), s, []).

(** A collaborator call: asked at the current tick, recorded with its answer. *)
Definition ask {R A} (q : World -> nat -> Res A) (ev : Res A -> Event) : M R A :=
  fun w s t =>
    match q w t with
    | Ok a => (Normal a, s, [ev (Ok a)])
    | Exn e => (Raised e, s, [ev (Exn e)])
    end.

Definition get_store {R} : M R Store := fun _ s _ => (Normal s, s, []).

(** ** The collaborator calls of the module *)

Definition datetime_now {R} : M R Z :=
  fun w s t => (Normal (utcnow w t), s, [EvNow (utcnow w t)]).

Definition asyncio_sleep {R} (milliseconds : Z) : M R unit :=
  fun _ s _ => (Normal tt, s, [EvSleep milliseconds]).

Definition db_get_message_by_id {R} (id : Z) : M R (option Models.Message) :=
  ask (fun w t => get_message_by_id w t id) (EvGetMessage id).

Definition mention {R} (entity_id msg_id : Z) : M R pystr :=
  ask (fun w t => create_mention w t entity_id msg_id) (EvMention entity_id msg_id).

Definition log_sender_send_message {R} (text : pystr) (file : option pystr) : M R unit :=
  ask (fun w t => send_message w t text file) (EvSendMessage text file).

Definition client_send_file {R} (file caption : pystr) (reply_to : option Z) : M R unit :=
  ask (fun w t => send_file w t file caption reply_to) (EvSendFile file caption reply_to).

Definition retrieve_media {R} (path : pystr) (restricted : bool) : M R MediaContext :=
  ask (fun w t => retrieve_media_as_file w t path restricted) (EvRetrieve path restricted) ;;
  ret {| ctx_path := path; ctx_restricted := restricted |}.

Definition ctx_enter {R} (ctx : MediaContext) : M R pystr :=
  ask (fun w t => media_enter w t ctx) (EvEnter ctx).

Definition ctx_exit {R} (ctx : MediaContext) : M R unit :=
  ask (fun w t => media_exit w t ctx) (EvExit ctx).

(** [async with self.restricted_media_handler.prepare_media(message) as p:
    body p].  [__aexit__] runs however the block ended; after an exception it
    may swallow it, and an exception of its own replaces whatever the block
    did. *)
Definition then_aexit {R} (block : M R unit) : M R unit :=
  fun w s t =>
    match block w s t with
    | (Raised e, s1, e1) =>
        match prepared_aexit w (length e1 + t)%nat (Some e) with
        | Ok true => (Normal tt, s1, e1 ++ [EvAExit (Some e) (Ok true)])
        | Ok false => (Raised e, s1, e1 ++ [EvAExit (Some e) (Ok false)])
        | Exn e' => (Raised e', s1, e1 ++ [EvAExit (Some e) (Exn e')])
        end
    | (o, s1, e1) =>
        match prepared_aexit w (length e1 + t)%nat None with
        | Ok b => (o, s1, e1 ++ [EvAExit None (Ok b)])
        | Exn e' => (Raised e', s1, e1 ++ [EvAExit None (Exn e')])
        end
    end.

Definition async_with_prepare_media {R} (m : TL.Message)
    (body : option pystr -> M R unit) : M R unit :=
  ask (fun w t => prepare_media w t m) (EvPrepare (TL.id m)) ;;
  p ← ask prepared_aenter EvAEnter ;
  then_aexit (body p).

Definition modify {R} (f : Store -> Store) : M R unit :=
  fun _ s _ => (Normal tt, f s, []).

Definition set_timestamps (q : list Z) (s : Store) : Store :=
  {| _deletion_timestamps := q;
     _rate_limit_paused_until := _rate_limit_paused_until s;
     media_context := media_context s |}.

Definition set_paused_until (p : option Z) (s : Store) : Store :=
  {| _deletion_timestamps := _deletion_timestamps s;
     _rate_limit_paused_until := p;
     media_context := media_context s |}.

Definition set_media_context (c : option MediaContext) (s : Store) : Store :=
  {| _deletion_timestamps := _deletion_timestamps s;
     _rate_limit_paused_until := _rate_limit_paused_until s;
     media_context := c |}.

(* ================================================================== *)
(** * Filter rules (lines 203-271) *)
(* ================================================================== *)

(** [_should_forward]: the rule for new and edited messages. *)
Definition _should_forward (h : OutputHandler) (w : World) (event : MessageEvent)
    : Res bool :=
  match message event with
  | None => Ok false
  | Some message =>
      match get_sender_id w message with
      | Exn e => Exn e
      | Ok sender_id =>
          let chat_id := TL.chat_id message in
          if mem sender_id (ignored_ids h) then Ok false
          else if truthy_int chat_id && mem_opt chat_id (ignored_ids h) then Ok false
          else
            let is_incoming_private := TL.is_private message && negb (TL.out message) in
            let is_group := TL.is_group message in
            if is_incoming_private && mem sender_id (forward_user_ids h) then Ok true
            else if is_group && mem_opt chat_id (forward_group_ids h) then Ok true
            else Ok false
      end
  end.

(** [event.peer] on an event of Telethon's class. *)
Definition no_peer_error : exn :=
  Exception (lit "AttributeError") (lit "'Event' object has no attribute 'peer'").

(** Lines 243-251 of [_should_log_deletion]: the chat id of the event, or
    else the one derived from its peer.  The peer is read only when the
    event has no chat id, and the read fails on an event that has no such
    attribute.  Of a peer that is there, a positive channel id [c] becomes
    [int(f"-100{c}")], a basic group id is negated, a user peer or [None]
    leaves the chat unknown. *)
Definition resolved_chat_id (event : DeletedEvent) : Res (option Z) :=
  match chat_id event with
  | Some c => Ok (Some c)
  | None =>
      match peer event with
      | None => Exn no_peer_error
      | Some (Some (TL.PeerChannel channel_id)) =>
          if 0 <? channel_id then
            match int_of_string ("-100" ++ NilZero.string_of_int (Z.to_int channel_id)) with
            | Some v => Ok (Some v)
            | None => Exn (Exception (lit "ValueError") [])
            end
          else Ok (Some channel_id)
      | Some (Some (TL.PeerChat c)) => Ok (Some (- c))
      | Some (Some (TL.PeerUser _)) => Ok None
      | Some None => Ok None
      end
  end.

(** [_should_log_deletion]: the rule for deletion events. *)
Definition _should_log_deletion (h : OutputHandler) (event : DeletedEvent)
    : Res bool :=
  match resolved_chat_id event with
  | Exn e => Exn e
  | Ok chat_id =>
      if truthy_int chat_id && mem_opt chat_id (ignored_ids h) then Ok false
      else if truthy_int chat_id && mem_opt chat_id (forward_group_ids h) then Ok true
      else if negb (is_some chat_id) then Ok true
      else Ok false
  end.

(* ================================================================== *)
(** * Retrying lookup (lines 275-309) *)
(* ================================================================== *)

(** [chat_id is None or message.chat_id == chat_id]. *)
Definition chat_matches (chat_id : option Z) (m : Models.Message) : bool :=
  match chat_id with
  | None => true
  | Some c => Models.chat_id m =? c
  end.

(** [retry_delay = 0.5] seconds. *)
Definition retry_delay_ms : Z := 500.

Definition _get_message_from_db_with_retry (message_id : Z) (chat_id : option Z)
    : Fn (option Models.Message) :=
  def_ (
    try_except (
      message ← db_get_message_by_id message_id ;
      match message with
      | Some m => if chat_matches chat_id m then return_ (Some m) else return_ None
      | None => pass
      end ;;
      asyncio_sleep retry_delay_ms ;;
      message ← db_get_message_by_id message_id ;
      match message with
      | Some m => if chat_matches chat_id m then return_ (Some m) else return_ None
      | None => return_ None
      end)
    (fun _ => return_ None)).

(* ================================================================== *)
(** * Deletion rate limiter (lines 313-365) *)
(* ================================================================== *)

(** The [while] loop of lines 333-334: timestamps are popped from the left
    as long as the oldest one is not after the cutoff. *)
Fixpoint popleft_while (cutoff : Z) (q : list Z) : list Z :=
  match q with
  | x :: q' => if x <=? cutoff then popleft_while cutoff q' else q
  | [] => []
  end.

(** The pause notice of lines 352-354. *)
Definition pause_notice (h : OutputHandler) (w : World) : pystr :=
  [9888; 65039; 32; 42; 42; 21024; 38500; 28040; 24687; 36895; 29575; 36807;
   24555; 42; 42; 10]
  ++ [26816; 27979; 21040; 22823; 37327; 21024; 38500; 20107; 20214; 32; 40;
      36229; 36807; 32]
  ++ str_int (deletion_rate_limit_threshold h)
  ++ [32; 26465; 32; 47; 32]
  ++ total_seconds_str w (deletion_rate_limit_window h)
  ++ [32; 31186; 41; 12290; 10]
  ++ [23558; 26242; 20572; 35760; 24405; 21024; 38500; 20107; 20214; 32]
  ++ total_seconds_str w (deletion_pause_duration h)
  ++ [32; 31186; 20197; 36991; 20813; 21047; 23631; 12290].

Definition _apply_deletion_rate_limit (h : OutputHandler) : Fn bool :=
  def_ (
    now ← datetime_now ;
    s ← get_store ;
    match _rate_limit_paused_until s with
    | Some paused_until => if now <? paused_until then return_ false else pass
    | None => pass
    end ;;
    match _rate_limit_paused_until s with
    | Some paused_until =>
        if paused_until <=? now then modify (set_paused_until None) else pass
    | None => pass
    end ;;
    let cutoff := now - deletion_rate_limit_window h in
    modify (fun s => set_timestamps (popleft_while cutoff (_deletion_timestamps s)) s) ;;
    modify (fun s => set_timestamps (_deletion_timestamps s ++ [now]) s) ;;
    s ← get_store ;
    if deletion_rate_limit_threshold h <? Z.of_nat (length (_deletion_timestamps s)) then
      modify (set_paused_until (Some (now + deletion_pause_duration h))) ;;
      (if log_sender h then
         notice ← render (pause_notice h) ;
         try_except (log_sender_send_message notice None) (fun _ => pass)
       else pass) ;;
      return_ false
    else return_ true).

(** [n] calls in a row. *)
Fixpoint allow_n {R} (h : OutputHandler) (n : nat) : M R (list bool) :=
  match n with
  | O => ret []
  | S n' =>
      b ← call (_apply_deletion_rate_limit h) ;
      bs ← allow_n h n' ;
      ret (b :: bs)
  end.

(* ================================================================== *)
(** * Formatter (lines 369-493) *)
(* ================================================================== *)

(** The three event labels the router passes. *)
Definition label_new : pystr := [26032; 28040; 24687].
Definition label_edited : pystr := [32534; 36753; 28040; 24687].
Definition label_deleted : pystr := [21024; 38500; 28040; 24687].

Definition unknown_time : pystr := [26410; 30693; 26102; 38388].
Definition unknown_id : pystr := [26410; 30693].

(** The length cap of the body and the marker appended to a cut body. *)
Definition body_cap : nat := 3500.

Definition truncation_marker : pystr :=
  [46; 46; 46; 32; 40; 28040; 24687; 36807; 38271; 25130; 26029; 41].

(** Lines 451-453. *)
Definition truncate_text (text_content : pystr) : pystr :=
  if Z.of_nat body_cap <? Z.of_nat (length text_content)
  then take body_cap text_content ++ truncation_marker
  else text_content.

(** Line 485: [*], [_] and [`] get a backslash, in this order. *)
Definition escape_markdown (text_content : pystr) : pystr :=
  replace_escape 96 (replace_escape 95 (replace_escape 42 text_content)).

(** Lines 456-462. *)
Definition format_header (event_type chat_mention sender_mention : pystr) : pystr :=
  let from := [10; 42; 42; 26469; 33258; 58; 42; 42; 32] ++ sender_mention in
  if bool_decide (event_type = label_new) then
    [9993; 65039; 32; 42; 42] ++ label_new ++ [42; 42; 32] ++ chat_mention ++ from
  else if bool_decide (event_type = label_edited) then
    [9999; 65039; 32; 42; 42] ++ label_edited ++ [42; 42; 32] ++ chat_mention ++ from
  else if bool_decide (event_type = label_deleted) then
    [128465; 65039; 32; 42; 42] ++ label_deleted ++ [42; 42; 32] ++ chat_mention ++ from
  else [].

(** Line 428. *)
Definition format_date (w : World) (date : option Z) : pystr :=
  match date with
  | Some d => strftime_utc w d
  | None => unknown_time
  end.

(** Lines 429-430. *)
Definition format_edit_date (w : World) (edit_date : option Z) (is_deleted : bool)
    : pystr :=
  match edit_date with
  | Some d =>
      if negb is_deleted
      then [10; 42; 42; 32534; 36753; 20110; 58; 42; 42; 32] ++ strftime_utc w d
      else []
  | None => []
  end.

(** Lines 431-449: the reply line, with a link for [-100...] chat ids and a
    textual note for the others. *)
Definition format_reply (chat_id_for_link reply_to_msg_id : option Z) : pystr :=
  match reply_to_msg_id with
  | Some reply_to =>
      if truthy_int reply_to_msg_id then
        let reply_link :=
          match chat_id_for_link with
          | Some c =>
              if truthy_int chat_id_for_link then
                let link_chat_id_str := str_int (Z.abs c) in
                let link_chat_id_str :=
                  if startswith (lit "100") link_chat_id_str
                  then drop 3 link_chat_id_str else link_chat_id_str in
                if negb (startswith (lit "-100") (str_int c)) then
                  [32; 40; 26222; 36890; 32676; 32452; 41]
                else
                  [32; 91; 21407; 22987; 28040; 24687; 93; 40]
                  ++ lit "https://t.me/c/" ++ link_chat_id_str ++ lit "/"
                  ++ str_int reply_to ++ lit ")"
              else []
          | None => []
          end in
        [10; 42; 42; 22238; 22797; 58; 42; 42; 32; 96] ++ str_int reply_to
        ++ [96] ++ reply_link
      else []
  | None => []
  end.

(** Lines 464-478: the media line. *)
Definition first_filename (attrs : list TL.DocumentAttribute) : pystr :=
  match
    List.find (fun a => match a with TL.DocumentAttributeFilename _ => true | _ => false end)
      attrs
  with
  | Some (TL.DocumentAttributeFilename file_name) => lit " (" ++ file_name ++ lit ")"
  | _ => []
  end.

Definition media_label : pystr := [10; 42; 42; 23186; 20307; 58; 42; 42; 32].

Definition format_media_indicator (message_data : MessageData) : pystr :=
  match message_data with
  | Live m =>
      match TL.media m with
      | Some media =>
          media_label ++ TL.type_name media
          ++ match TL.attributes media with
             | Some attrs => first_filename attrs
             | None => []
             end
      | None => []
      end
  | Archived m =>
      match Models.media_type m with
      | Some (c :: ty) => media_label ++ c :: ty
      | _ => []
      end
  | Invalid _ => []
  end.

(** Line 481. *)
Definition format_footer (msg_id : Z) (reply_to_str date_str edit_date_str
    media_indicator : pystr) : pystr :=
  [10; 42; 42; 28040; 24687; 32; 73; 68; 58; 42; 42; 32; 96] ++ str_int msg_id
  ++ [96] ++ reply_to_str
  ++ [10; 42; 42; 26102; 38388; 58; 42; 42; 32] ++ date_str
  ++ edit_date_str ++ media_indicator.

(** Line 487: [f"{header}\n\n{text_content}\n{footer}"]. *)
Definition assemble (header body footer : pystr) : pystr :=
  header ++ [10; 10] ++ body ++ [10] ++ footer.

Definition client_unset_text : pystr :=
  [10060; 32; 26684; 24335; 21270; 38169; 35823; 65306; 23458; 25143; 31471;
   26410; 35774; 32622; 12290].

Definition invalid_type_text (type_repr : pystr) : pystr :=
  [10060; 32; 26684; 24335; 21270; 38169; 35823; 65306; 26080; 25928; 30340;
   28040; 24687; 25968; 25454; 31867; 22411; 32] ++ type_repr.

(** Lines 491-493; [getattr(message_data, 'id', '未知')]. *)
Definition format_error_text (message_data : MessageData) : pystr :=
  [10060; 32; 26684; 24335; 21270; 28040; 24687; 26102; 20986; 38169; 32; 40;
   73; 68; 58; 32]
  ++ match message_data with
     | Live m => str_int (TL.id m)
     | Archived m => str_int (Models.id m)
     | Invalid _ => unknown_id
     end
  ++ [41; 12290].

(** What the first part of the [try] block gathers from either kind of
    message (lines 391-425). *)
Record Gathered : Type := {
  g_msg_id : Z;
  g_chat_id_for_link : option Z;
  g_text_content : option pystr;
  g_date : option Z;
  g_edit_date : option Z;
  g_reply_to_msg_id : option Z;
  g_sender_mention : pystr;
  g_chat_mention : pystr
}.

(** Lines 427-487, once the message has been read. *)
Definition format_gathered (w : World) (event_type : pystr)
    (message_data : MessageData) (is_deleted : bool) (g : Gathered)
    (text_content : pystr) : pystr :=
  let date_str := format_date w (g_date g) in
  let edit_date_str := format_edit_date w (g_edit_date g) is_deleted in
  let reply_to_str := format_reply (g_chat_id_for_link g) (g_reply_to_msg_id g) in
  let text_content := truncate_text text_content in
  let header := format_header event_type (g_chat_mention g) (g_sender_mention g) in
  let media_indicator := format_media_indicator message_data in
  let footer :=
    format_footer (g_msg_id g) reply_to_str date_str edit_date_str media_indicator in
  let text_content := escape_markdown text_content in
  assemble header text_content footer.

Definition _format_output_message (h : OutputHandler) (event_type : pystr)
    (message_data : MessageData) (is_deleted : bool) : Fn pystr :=
  def_ (
    if negb (client h) then return_ client_unset_text
    else
      try_except (
        g ← match message_data with
            | Live m =>
                sender_id ← eval (fun w => get_sender_id w m) ;
                sender_mention ← mention sender_id (TL.id m) ;
                chat_mention ←
                  match TL.chat_id m with
                  | Some c =>
                      if truthy_int (Some c) && negb (TL.is_private m)
                      then mention c (TL.id m) else ret []
                  | None => ret []
                  end ;
                ret {| g_msg_id := TL.id m;
                       g_chat_id_for_link := TL.chat_id m;
                       g_text_content :=
                         Some (match TL.text m with Some t => t | None => [] end);
                       g_date := TL.date m;
                       g_edit_date := TL.edit_date m;
                       g_reply_to_msg_id := TL.reply_to_msg_id m;
                       g_sender_mention := sender_mention;
                       g_chat_mention := chat_mention |}
            | Archived m =>
                sender_mention ← mention (Models.from_id m) (Models.id m) ;
                chat_mention ←
                  (if truthy_int (Some (Models.chat_id m)) && negb (Models.is_private m)
                   then mention (Models.chat_id m) (Models.id m) else ret []) ;
                ret {| g_msg_id := Models.id m;
                       g_chat_id_for_link := Some (Models.chat_id m);
                       g_text_content := Models.text m;
                       g_date := Models.date m;
                       g_edit_date := Models.edit_date m;
                       g_reply_to_msg_id := Models.reply_to_msg_id m;
                       g_sender_mention := sender_mention;
                       g_chat_mention := chat_mention |}
            | Invalid type_repr => return_ (invalid_type_text type_repr)
            end ;
        match g_text_content g with
        | Some text_content =>
            out ← render (fun w =>
                    format_gathered w event_type message_data is_deleted g text_content) ;
            return_ out
        | None =>
            (* len(None) *)
            raise (Exception (lit "TypeError") (lit "object of type 'NoneType' has no len()"))
        end)
      (fun _ => return_ (format_error_text message_data))).

(* ================================================================== *)
(** * Media delivery (lines 496-649) *)
(* ================================================================== *)

(** Line 521. *)
Definition is_sticker (media : TL.MessageMedia) : bool :=
  match TL.attributes media with
  | Some attrs =>
      existsb (fun a => match a with TL.DocumentAttributeSticker => true | _ => false end)
        attrs
  | None => false
  end.

(** Line 504: the text sent when the helpers are missing. *)
Definition init_error_text (text : pystr) : pystr :=
  [9888; 65039; 32; 42; 42; 23186; 20307; 21457; 36865; 22833; 36133; 32; 40;
   21021; 22987; 21270; 38169; 35823; 41; 42; 42; 32; 9888; 65039; 10; 10]
  ++ text.

(** Line 625: the text-only fallback, marked as sent without its media. *)
Definition media_not_sent_text (text : pystr) : pystr :=
  [9888; 65039; 32; 42; 42; 23186; 20307; 21487; 33021; 26410; 21457; 36865;
   42; 42; 32; 9888; 65039; 10; 10]
  ++ text
  ++ [10; 10; 40; 21407; 22987; 23186; 20307; 26410; 33021; 25104; 21151;
      22788; 29702; 25110; 21457; 36865; 41].

(** Lines 635-638: the report of an unexpected error. *)
Definition critical_error_text (message_id : Z) (e : exn) (text : pystr) : pystr :=
  [10060; 32; 42; 42; 21457; 36865; 28040; 24687; 26102; 21457; 29983; 20005;
   37325; 38169; 35823; 42; 42; 32; 10060; 10; 10]
  ++ [23581; 35797; 22788; 29702; 28040; 24687; 32; 73; 68; 32; 96]
  ++ str_int message_id
  ++ [96; 32; 26102; 36935; 21040; 24847; 22806; 38382; 39064; 12290; 10]
  ++ [38169; 35823; 58; 32] ++ exn_name e ++ lit ": " ++ exn_str e ++ [10; 10]
  ++ [21407; 22987; 25991; 26412; 20869; 23481; 32; 40; 21487; 33021; 19981;
      23436; 25972; 41; 58; 10]
  ++ take 500 text ++ lit "...".

(** [try: media_context.__exit__(None, None, None)  except Exception: log]. *)
Definition exit_quietly {R} (ctx : MediaContext) : M R unit :=
  try_except (ctx_exit ctx) (fun _ => pass).

(** The [finally] of lines 550-554 and 613-617. *)
Definition release_media_context {R} : M R unit :=
  s ← get_store ;
  match media_context s with
  | Some ctx => exit_quietly ctx ;; modify (set_media_context None)
  | None => pass
  end.

(** The [finally] of lines 643-649. *)
Definition release_media_context_at_end {R} : M R unit :=
  s ← get_store ;
  match media_context s with
  | Some ctx => exit_quietly ctx
  | None => pass
  end.

(** Lines 528-556: the sticker file the store knows, sent through the client
    with the text as caption. *)
Definition send_saved_sticker (text : pystr) (message : TL.Message) : M unit unit :=
  db_message ← db_get_message_by_id (TL.id message) ;
  match db_message with
  | Some dbm =>
      match Models.media_path dbm with
      | Some (c :: p) =>
          finally_
            (try_except (
               ctx ← retrieve_media (c :: p) (Models.is_restricted dbm) ;
               modify (set_media_context (Some ctx)) ;;
               media_file_path ← ctx_enter ctx ;
               client_send_file media_file_path text (TL.reply_to_msg_id message) ;;
               return_ tt)
             (fun _ => pass))
            release_media_context
      | _ => pass
      end
  | None => pass
  end.

(** Lines 559-575: the sticker fetched afresh. *)
Definition send_fetched_sticker (text : pystr) (message : TL.Message) : M unit unit :=
  try_except (
    async_with_prepare_media message (fun prepared_media_path =>
      match prepared_media_path with
      | Some (c :: p) =>
          client_send_file (c :: p) text (TL.reply_to_msg_id message) ;;
          return_ tt
      | _ => pass
      end))
  (fun _ => pass).

(** Lines 581-592: restricted media, fetched and sent through the log
    sender. *)
Definition send_restricted_media (text : pystr) (message : TL.Message) : M unit unit :=
  try_except (
    async_with_prepare_media message (fun prepared_media_path =>
      match prepared_media_path with
      | Some (c :: p) =>
          log_sender_send_message text (Some (c :: p)) ;;
          return_ tt
      | _ => pass
      end))
  (fun _ => pass).

(** Lines 597-619: ordinary media, read from the store. *)
Definition send_stored_media (text : pystr) (message : TL.Message) : M unit unit :=
  db_message ← db_get_message_by_id (TL.id message) ;
  match db_message with
  | Some dbm =>
      match Models.media_path dbm with
      | Some (c :: p) =>
          finally_
            (try_except (
               ctx ← retrieve_media (c :: p) false ;
               modify (set_media_context (Some ctx)) ;;
               media_file_path ← ctx_enter ctx ;
               log_sender_send_message text (Some media_file_path) ;;
               return_ tt)
             (fun _ => pass))
            release_media_context
      | _ => pass
      end
  | None => pass
  end.

Definition _send_message_with_media (h : OutputHandler) (text : pystr)
    (message : TL.Message) : Fn unit :=
  def_ (
    if negb (log_sender h) || negb (restricted_media_handler h) || negb (client h) then
      (if log_sender h
       then log_sender_send_message (init_error_text text) None
       else pass) ;;
      return_ tt
    else
      modify (set_media_context None) ;;
      finally_
        (try_except (
           match TL.media message with
           | None =>
               log_sender_send_message text None ;;
               return_ tt
           | Some media =>
               let is_restricted := TL.noforwards message in
               (if is_sticker media then
                  send_saved_sticker text message ;;
                  send_fetched_sticker text message
                else if is_restricted then
                  send_restricted_media text message
                else
                  send_stored_media text message) ;;
               log_sender_send_message (media_not_sent_text text) None
           end)
         (fun e =>
            if log_sender h then
              try_except
                (log_sender_send_message
                   (critical_error_text (TL.id message) e text) None)
                (fun _ => pass)
            else pass))
        release_media_context_at_end ;;
      return_ tt).

(* ================================================================== *)
(** * Event router (lines 84-199) *)
(* ================================================================== *)

(** [event.message.id] on an event without message. *)
Definition no_message_error : exn :=
  Exception (lit "AttributeError") (lit "'NoneType' object has no attribute 'id'").

Definition _process_new_message (h : OutputHandler) (event : MessageEvent) : Fn unit :=
  def_ (
    should ← eval (fun w => _should_forward h w event) ;
    match message event with
    | None => raise no_message_error
    | Some m =>
        if negb should then return_ tt
        else
          formatted_text ← call (_format_output_message h label_new (Live m) false) ;
          call (_send_message_with_media h formatted_text m) ;;
          return_ tt
    end).

Definition _process_edited_message (h : OutputHandler) (event : MessageEvent) : Fn unit :=
  def_ (
    should ← eval (fun w => _should_forward h w event) ;
    match message event with
    | None => raise no_message_error
    | Some m =>
        if negb should then return_ tt
        else
          formatted_text ← call (_format_output_message h label_edited (Live m) false) ;
          (if log_sender h then log_sender_send_message formatted_text None else pass) ;;
          return_ tt
    end).

(** Lines 185-195: the entry logged for a deleted message the store does not
    know. *)
Definition unknown_content_text (mention_text : pystr) : pystr :=
  [128465; 65039; 32; 42; 42; 21024; 38500; 28040; 24687; 32; 40; 20869; 23481;
   26410; 30693; 41; 42; 42; 10; 10]
  ++ mention_text
  ++ [32; 24050; 34987; 21024; 38500; 65292; 20294; 26080; 27861; 20174; 25968;
      25454; 24211; 20013; 26816; 32034; 21040; 21407; 22987; 20869; 23481; 12290].

Definition message_id_text (msg_id : Z) : pystr :=
  [28040; 24687; 32; 73; 68; 32; 96] ++ str_int msg_id ++ [96].

Definition log_deleted_id (h : OutputHandler) (chat_id : option Z) (msg_id : Z)
    : M unit unit :=
  original_message ← call (_get_message_from_db_with_retry msg_id chat_id) ;
  match original_message with
  | Some original =>
      formatted_text ←
        call (_format_output_message h label_deleted (Archived original) true) ;
      if log_sender h then log_sender_send_message formatted_text None else pass
  | None =>
      mention_text ←
        match chat_id with
        | Some c =>
            if truthy_int (Some c) && client h then
              try_except (
                chat_mention ← mention c msg_id ;
                ret (chat_mention ++ [32; 20013; 30340] ++ message_id_text msg_id))
              (fun _ =>
                ret ([32842; 22825; 32; 96] ++ str_int c ++ [96; 32; 20013; 30340]
                     ++ message_id_text msg_id))
            else ret (message_id_text msg_id)
        | None => ret (message_id_text msg_id)
        end ;
      if log_sender h
      then log_sender_send_message (unknown_content_text mention_text) None
      else pass
  end.

Definition _process_deleted_message (h : OutputHandler) (event : DeletedEvent) : Fn unit :=
  def_ (
    should ← eval (fun _ => _should_log_deletion h event) ;
    if negb should then return_ tt
    else
      allowed ← call (_apply_deletion_rate_limit h) ;
      if negb allowed then return_ tt
      else
        for_each (deleted_ids event) (log_deleted_id h (chat_id event)) ;;
        return_ tt).

(** The [isinstance] tests of lines 95-99, with the payload of the event.
    [MessageEdited.Event] is a subclass of [NewMessage.Event]: the first test
    holds of an edited message too. *)
Definition isinstance_NewMessage (event : InboundEvent) : option MessageEvent :=
  match event with
  | NewMessage e | MessageEdited e => Some e
  | _ => None
  end.

Definition isinstance_MessageEdited (event : InboundEvent) : option MessageEvent :=
  match event with
  | MessageEdited e => Some e
  | _ => None
  end.

Definition isinstance_MessageDeleted (event : InboundEvent) : option DeletedEvent :=
  match event with
  | MessageDeleted e => Some e
  | _ => None
  end.

Definition process (h : OutputHandler) (event : InboundEvent)
    : Fn (option Models.Message) :=
  def_ (
    if negb (helpers_ready h) then return_ None
    else
      try_except (
        match isinstance_NewMessage event with
        | Some e => call (_process_new_message h e)
        | None =>
            match isinstance_MessageEdited event with
            | Some e => call (_process_edited_message h e)
            | None =>
                match isinstance_MessageDeleted event with
                | Some e => call (_process_deleted_message h e)
                | None => pass
                end
            end
        end ;;
        return_ None)
      (fun _ => return_ None)).

(* ================================================================== *)
(** * Observations on the recorded calls *)
(* ================================================================== *)

Definition is_clock_read (e : Event) : bool :=
  match e with EvNow _ => true | _ => false end.

Definition is_store_read (e : Event) : bool :=
  match e with EvGetMessage _ _ => true | _ => false end.

Definition is_send (e : Event) : bool :=
  match e with
  | EvSendMessage _ _ _ | EvSendFile _ _ _ _ => true
  | _ => false
  end.

Definition is_sent_file (e : Event) : bool :=
  match e with EvSendFile _ _ _ (Ok _) => true | _ => false end.

Definition is_prepare (e : Event) : bool :=
  match e with EvPrepare _ _ => true | _ => false end.

(** A text-only send of exactly [text]. *)
Definition same_text (a b : pystr) : bool := bool_decide (a = b).

Definition is_text_send (text : pystr) (e : Event) : bool :=
  match e with
  | EvSendMessage sent None _ => same_text sent text
  | _ => false
  end.

Definition count (p : Event -> bool) (evs : list Event) : nat :=
  length (List.filter p evs).

Definition is_mention (e : Event) : bool :=
  match e with EvMention _ _ _ => true | _ => false end.

(** The body text the formatter reads off its argument: [text or ""] of a
    live message, [text] of an archived one. *)
Definition body_text (message_data : MessageData) : option pystr :=
  match message_data with
  | Live m => Some (match TL.text m with Some t => t | None => [] end)
  | Archived m => Models.text m
  | Invalid _ => None
  end.

(** The calls made before the fresh fetch of the media starts, and after. *)
Fixpoint until_prepare (evs : list Event) : list Event :=
  match evs with
  | [] => []
  | e :: evs' => if is_prepare e then [] else e :: until_prepare evs'
  end.

Fixpoint after_prepare (evs : list Event) : list Event :=
  match evs with
  | [] => []
  | e :: evs' => if is_prepare e then evs' else after_prepare evs'
  end.

(** Step 1 of the rate limiter: a pause is set and has not elapsed. *)
Definition in_cooldown (s : Store) (now : Z) : bool :=
  match _rate_limit_paused_until s with
  | Some paused_until => now <? paused_until
  | None => false
  end.

(** The timestamps after steps 3 and 4. *)
Definition recorded (h : OutputHandler) (s : Store) (now : Z) : list Z :=
  popleft_while (now - deletion_rate_limit_window h) (_deletion_timestamps s) ++ [now].



(** [n] calls of the rate limiter in a row, as a function. *)
Definition allow_calls (h : OutputHandler) (n : nat) : Fn (list bool) :=
  def_ (bs ← allow_n h n ; return_ bs).



(** ** Further observations on the recorded calls *)

(** A send that carried a file and succeeded: through the client, or through
    the log sender with [file=]. *)
Definition is_attachment_sent (e : Event) : bool :=
  match e with
  | EvSendFile _ _ _ (Ok _) => true
  | EvSendMessage _ (Some _) (Ok _) => true
  | _ => false
  end.

(** A send that carried a file, whatever its fate. *)
Definition is_attachment_send (e : Event) : bool :=
  match e with
  | EvSendFile _ _ _ _ => true
  | EvSendMessage _ (Some _) _ => true
  | _ => false
  end.

(** [retrieve_media_as_file] handed out a context manager. *)
Definition is_retrieved (e : Event) : bool :=
  match e with EvRetrieve _ _ (Ok _) => true | _ => false end.

Definition is_exit (e : Event) : bool :=
  match e with EvExit _ _ => true | _ => false end.

(** [__aenter__] of the prepared media went through. *)
Definition is_aentered (e : Event) : bool :=
  match e with EvAEnter (Ok _) => true | _ => false end.

Definition is_aexit (e : Event) : bool :=
  match e with EvAExit _ _ => true | _ => false end.

(** The calls of the stored-file path and of the fresh-fetch path. *)
Definition is_stored_media_call (e : Event) : bool :=
  match e with
  | EvRetrieve _ _ _ | EvEnter _ _ | EvExit _ _ => true
  | _ => false
  end.

Definition is_media_fetch (e : Event) : bool :=
  match e with
  | EvPrepare _ _ | EvAEnter _ | EvAExit _ _ => true
  | _ => false
  end.

(** Any call that touches media or the store. *)
Definition is_media_or_store_call (e : Event) : bool :=
  is_store_read e || is_stored_media_call e || is_media_fetch e
  || is_attachment_send e.

(** The log chat accepts, respectively refuses, every message. *)
Definition sends_succeed (w : World) : Prop :=
  forall t text file, send_message w t text file = Ok tt.

(** A read of the record of [msg_id], or a call that reads no record. *)
Definition reads_only (msg_id : Z) (e : Event) : bool :=
  match e with
  | EvGetMessage id _ => id =? msg_id
  | _ => true
  end.

(** The calls that log one deleted id: one or two reads of its record, of
    no other record, and mentions; then the one send of its entry, without
    file, which goes through. *)
Definition logs_one_id (msg_id : Z) (calls : list Event) : Prop :=
  exists before text,
    calls = before ++ [EvSendMessage text None (Ok tt)]
    /\ count is_send before = 0%nat
    /\ (1 <= count is_store_read before <= 2)%nat
    /\ forallb (reads_only msg_id) before = true.

(** Every mention can be made. *)
Definition mentions_succeed (w : World) : Prop :=
  forall t entity_id msg_id, exists text, create_mention w t entity_id msg_id = Ok text.

Definition sends_fail (w : World) : Prop :=
  forall t text file, exists e, send_message w t text file = Exn e.

(** A mention lookup that failed. *)
Definition is_failed_mention (e : Event) : bool :=
  match e with EvMention _ _ (Exn _) => true | _ => false end.

(** The three characters [escape_markdown] escapes. *)
Definition is_markdown_special (c : Z) : bool :=
  (c =? 42) || (c =? 95) || (c =? 96).

(** The inverse of the escaping: a backslash that stands before one of the
    three characters is dropped. *)
Fixpoint unescape_markdown (s : pystr) : pystr :=
  match s with
  | [] => []
  | c :: s' =>
      match s' with
      | d :: s'' =>
          if (c =? 92) && is_markdown_special d
          then d :: unescape_markdown s''
          else c :: unescape_markdown s'
      | [] => [c]
      end
  end.

(** ** The rules as the specification words them *)

(** "Forwarded iff neither the sender id nor the chat id is in ignoredIds,
    and either the message is an incoming private message whose sender is in
    forwardUserIds, or it is a group/channel message whose chat is in
    forwardGroupIds." *)
Definition spec_should_forward (h : OutputHandler) (sender_id : Z) (m : TL.Message)
    : bool :=
  negb (mem sender_id (ignored_ids h))
  && negb (mem_opt (TL.chat_id m) (ignored_ids h))
  && ((TL.is_private m && negb (TL.out m) && mem sender_id (forward_user_ids h))
      || ((TL.is_group m || TL.is_channel m)
          && mem_opt (TL.chat_id m) (forward_group_ids h))).

(** "Not logged if the resolved chat id is in ignoredIds; logged if it is in
    forwardGroupIds; logged if the chat id is unknown; otherwise not
    logged." *)
Definition spec_should_log_deletion (h : OutputHandler) (resolved : option Z) : bool :=
  match resolved with
  | None => true
  | Some c =>
      if mem c (ignored_ids h) then false
      else if mem c (forward_group_ids h) then true
      else false
  end.

(** The body segment of a formatted entry, as the specification counts it:
    what stands between header and footer. *)
Definition body_segment (text_content : pystr) : pystr :=
  escape_markdown (truncate_text text_content).

(* ================================================================== *)
(** * Sample handlers, messages and worlds *)
(* ================================================================== *)

(** A handler with the default limits, forwarding user 7 and group -1002. *)
Definition sample_handler : OutputHandler :=
  configured (-1001) {[ 13 ]} (Some [7]) (Some [-1002]) 5
    (timedelta_seconds 10) (timedelta_seconds 5).

(** A handler whose pause outlasts its window: 2 events per 5 seconds, 10
    seconds of pause. *)
Definition patient_handler : OutputHandler :=
  configured (-1001) {[ 13 ]} (Some [7]) (Some [-1002]) 2
    (timedelta_seconds 5) (timedelta_seconds 10).

(** A handler that both ignores and forwards chat id 0. *)
Definition zero_handler : OutputHandler :=
  configured (-1001) {[ 0 ]} None (Some [0]) 5
    (timedelta_seconds 10) (timedelta_seconds 5).

Definition plain_message (sender_chat : Z) (body : pystr) : TL.Message :=
  {| TL.id := 1; TL.chat_id := Some sender_chat; TL.text := Some body;
     TL.date := None; TL.edit_date := None; TL.reply_to_msg_id := None;
     TL.is_private := true; TL.is_group := false; TL.is_channel := false;
     TL.out := false; TL.media := None; TL.noforwards := false |}.

(** An outgoing private message. *)
Definition outgoing_message : TL.Message :=
  {| TL.id := 2; TL.chat_id := Some 7; TL.text := Some (lit "hi");
     TL.date := None; TL.edit_date := None; TL.reply_to_msg_id := None;
     TL.is_private := true; TL.is_group := false; TL.is_channel := false;
     TL.out := true; TL.media := None; TL.noforwards := false |}.

(** A post of the broadcast channel -1002. *)
Definition channel_post : TL.Message :=
  {| TL.id := 3; TL.chat_id := Some (-1002); TL.text := Some (lit "news");
     TL.date := None; TL.edit_date := None; TL.reply_to_msg_id := None;
     TL.is_private := false; TL.is_group := false; TL.is_channel := true;
     TL.out := false; TL.media := None; TL.noforwards := false |}.

(** A group message whose chat id is 0. *)
Definition zero_chat_message : TL.Message :=
  {| TL.id := 4; TL.chat_id := Some 0; TL.text := Some (lit "zero");
     TL.date := None; TL.edit_date := None; TL.reply_to_msg_id := None;
     TL.is_private := false; TL.is_group := true; TL.is_channel := false;
     TL.out := false; TL.media := None; TL.noforwards := false |}.

(** A sticker as Telethon delivers it: a document whose attributes, kept on
    the document, say so. *)
Definition telethon_sticker : TL.MessageMedia :=
  {| TL.type_name := lit "MessageMediaDocument"; TL.attributes := None;
     TL.document := Some [TL.DocumentAttributeSticker] |}.

Definition telethon_sticker_message : TL.Message :=
  {| TL.id := 5; TL.chat_id := Some 7; TL.text := None;
     TL.date := None; TL.edit_date := None; TL.reply_to_msg_id := Some 4;
     TL.is_private := true; TL.is_group := false; TL.is_channel := false;
     TL.out := false; TL.media := Some telethon_sticker;
     TL.noforwards := false |}.

(** A media object of another make, which carries the attribute list
    itself, and a message with it. *)
Definition flagged_sticker : TL.MessageMedia :=
  {| TL.type_name := lit "MessageMediaDocument";
     TL.attributes := Some [TL.DocumentAttributeSticker];
     TL.document := None |}.

Definition sticker_message : TL.Message :=
  {| TL.id := 5; TL.chat_id := Some 7; TL.text := None;
     TL.date := None; TL.edit_date := None; TL.reply_to_msg_id := Some 4;
     TL.is_private := true; TL.is_group := false; TL.is_channel := false;
     TL.out := false; TL.media := Some flagged_sticker;
     TL.noforwards := false |}.

(** The archived sticker, with the path of a file that is gone. *)
Definition archived_sticker : Models.Message :=
  {| Models.id := 5; Models.from_id := 7; Models.chat_id := 7;
     Models.text := Some []; Models.date := None; Models.edit_date := None;
     Models.reply_to_msg_id := Some 4; Models.is_private := true;
     Models.media_type := Some (lit "MessageMediaDocument");
     Models.media_path := Some (lit "media/5.webp");
     Models.is_restricted := false |}.

(** A world where every collaborator answers, the store is empty, no media
    can be fetched, and the clock shows the tick in seconds. *)
Definition calm_world : World :=
  {| get_sender_id := fun _ => Ok 7;
     utcnow := fun t => timedelta_seconds (Z.of_nat t);
     get_message_by_id := fun _ _ => Ok None;
     create_mention := fun _ _ _ => Ok (lit "user");
     send_message := fun _ _ _ => Ok tt;
     send_file := fun _ _ _ _ => Ok tt;
     retrieve_media_as_file := fun _ _ _ => Ok tt;
     media_enter := fun _ ctx => Ok (ctx_path ctx);
     media_exit := fun _ _ => Ok tt;
     prepare_media := fun _ _ => Ok tt;
     prepared_aenter := fun _ => Ok None;
     prepared_aexit := fun _ _ => Ok false;
     strftime_utc := fun _ => lit "2024-01-01 00:00:00 UTC";
     total_seconds_str := fun d => str_int (d / 1000000) ++ lit ".0" |}.


(** The store knows the sticker, its file is gone, and the fresh fetch
    yields nothing. *)
Definition lost_file_world : World :=
  {| get_sender_id := get_sender_id calm_world;
     utcnow := utcnow calm_world;
     get_message_by_id := fun _ _ => Ok (Some archived_sticker);
     create_mention := create_mention calm_world;
     send_message := send_message calm_world;
     send_file := send_file calm_world;
     retrieve_media_as_file := retrieve_media_as_file calm_world;
     media_enter := fun _ ctx => Exn (FileNotFoundError (ctx_path ctx));
     media_exit := media_exit calm_world;
     prepare_media := prepare_media calm_world;
     prepared_aenter := prepared_aenter calm_world;
     prepared_aexit := prepared_aexit calm_world;
     strftime_utc := strftime_utc calm_world;
     total_seconds_str := total_seconds_str calm_world |}.

(** The store learns of message 5 only after the first read. *)
Definition late_store_world : World :=
  {| get_sender_id := get_sender_id calm_world;
     utcnow := utcnow calm_world;
     get_message_by_id :=
       fun t _ => if (t <? 2)%nat then Ok None else Ok (Some archived_sticker);
     create_mention := create_mention calm_world;
     send_message := send_message calm_world;
     send_file := send_file calm_world;
     retrieve_media_as_file := retrieve_media_as_file calm_world;
     media_enter := media_enter calm_world;
     media_exit := media_exit calm_world;
     prepare_media := prepare_media calm_world;
     prepared_aenter := prepared_aenter calm_world;
     prepared_aexit := prepared_aexit calm_world;
     strftime_utc := strftime_utc calm_world;
     total_seconds_str := total_seconds_str calm_world |}.

(** The log chat cannot be reached. *)
Definition unreachable_world : World :=
  {| get_sender_id := get_sender_id calm_world;
     utcnow := utcnow calm_world;
     get_message_by_id := get_message_by_id calm_world;
     create_mention := create_mention calm_world;
     send_message := fun _ _ _ => Exn (Exception (lit "ConnectionError") []);
     send_file := fun _ _ _ _ => Exn (Exception (lit "ConnectionError") []);
     retrieve_media_as_file := retrieve_media_as_file calm_world;
     media_enter := media_enter calm_world;
     media_exit := media_exit calm_world;
     prepare_media := prepare_media calm_world;
     prepared_aenter := prepared_aenter calm_world;
     prepared_aexit := prepared_aexit calm_world;
     strftime_utc := strftime_utc calm_world;
     total_seconds_str := total_seconds_str calm_world |}.

(** The handler as [__init__] leaves it, before [set_client]: no client and
    no helper. *)
Definition unset_handler : OutputHandler :=
  {| log_chat_id := -1001;
     ignored_ids := {[ 13 ]};
     forward_user_ids := {[ 7 ]};
     forward_group_ids := {[ -1002 ]};
     deletion_rate_limit_threshold := 5;
     deletion_rate_limit_window := timedelta_seconds 10;
     deletion_pause_duration := timedelta_seconds 5;
     client := false;
     log_sender := false;
     formatter := false;
     restricted_media_handler := false |}.


(** A handler built without forward lists. *)
Definition listless_handler : OutputHandler :=
  configured (-1001) {[ 13 ]} None (Some []) 5
    (timedelta_seconds 10) (timedelta_seconds 5).

Definition photo : TL.MessageMedia :=
  {| TL.type_name := lit "MessageMediaPhoto"; TL.attributes := None;
     TL.document := None |}.

(** A photo, and a photo from a chat that forbids forwarding. *)
Definition photo_message : TL.Message :=
  {| TL.id := 6; TL.chat_id := Some 7; TL.text := Some (lit "look");
     TL.date := None; TL.edit_date := None; TL.reply_to_msg_id := None;
     TL.is_private := true; TL.is_group := false; TL.is_channel := false;
     TL.out := false; TL.media := Some photo; TL.noforwards := false |}.

Definition protected_photo_message : TL.Message :=
  {| TL.id := 8; TL.chat_id := Some 7; TL.text := Some (lit "look");
     TL.date := None; TL.edit_date := None; TL.reply_to_msg_id := None;
     TL.is_private := true; TL.is_group := false; TL.is_channel := false;
     TL.out := false; TL.media := Some photo; TL.noforwards := true |}.

(** Two messages deleted in the forwarded group -1002. *)
Definition group_deletion : DeletedEvent :=
  {| deleted_ids := [1; 2]; chat_id := Some (-1002); peer := None |}.

(** Two messages deleted in a private chat or a basic group: Telethon
    builds the event without chat. *)
Definition chatless_deletion : DeletedEvent :=
  {| deleted_ids := [1; 2]; chat_id := None; peer := None |}.

(* ================================================================== *)
(** * Properties *)
(* ================================================================== *)

(** The texts are kept folded while the control flow is run. *)
#[global] Arguments pause_notice : simpl never.
#[global] Arguments media_not_sent_text : simpl never.
#[global] Arguments critical_error_text : simpl never.
#[global] Arguments init_error_text : simpl never.
#[global] Arguments unknown_content_text : simpl never.
#[global] Arguments message_id_text : simpl never.
#[global] Arguments format_error_text : simpl never.
#[global] Arguments invalid_type_text : simpl never.
#[global] Arguments format_gathered : simpl never.
#[global] Arguments str_int : simpl never.
#[global] Arguments lit : simpl never.

(** ** Membership tests *)

Lemma mem_true (x : Z) (s : gset Z) : mem x s = true <-> x ∈ s.
Proof. unfold mem. apply bool_decide_eq_true. Qed.

Lemma mem_false (x : Z) (s : gset Z) : mem x s = false <-> x ∉ s.
Proof. unfold mem. apply bool_decide_eq_false. Qed.

Lemma truthy_int_Some (c : Z) : truthy_int (Some c) = true <-> c <> 0.
Proof.
  unfold truthy_int. rewrite negb_true_iff. split.
  - intros H. apply Z.eqb_neq. exact H.
  - intros H. apply Z.eqb_neq. exact H.
Qed.

(** ** The forwarding rule *)

(** What [_should_forward] computes once the message and its sender are
    known. *)
Lemma should_forward_eval (h : OutputHandler) (w : World) (ev : MessageEvent)
    (m : TL.Message) (sender_id : Z) :
  message ev = Some m ->
  get_sender_id w m = Ok sender_id ->
  _should_forward h w ev =
    Ok (negb (mem sender_id (ignored_ids h))
        && negb (truthy_int (TL.chat_id m) && mem_opt (TL.chat_id m) (ignored_ids h))
        && ((TL.is_private m && negb (TL.out m) && mem sender_id (forward_user_ids h))
            || (TL.is_group m && mem_opt (TL.chat_id m) (forward_group_ids h)))).
Proof.
  intros Hm Hs. unfold _should_forward. rewrite Hm, Hs.
  destruct (mem sender_id (ignored_ids h)); [reflexivity |].
  destruct (truthy_int (TL.chat_id m) && mem_opt (TL.chat_id m) (ignored_ids h));
    [reflexivity |].
  destruct (TL.is_private m && negb (TL.out m) && mem sender_id (forward_user_ids h));
    [reflexivity |].
  destruct (TL.is_group m && mem_opt (TL.chat_id m) (forward_group_ids h)); reflexivity.
Qed.

Lemma should_forward_true_inv (h : OutputHandler) (w : World) (ev : MessageEvent) :
  _should_forward h w ev = Ok true ->
  exists m sender_id, message ev = Some m /\ get_sender_id w m = Ok sender_id.
Proof.
  unfold _should_forward. destruct (message ev) as [m |]; [| discriminate].
  destruct (get_sender_id w m) as [sender_id | e] eqn:Hs; [| discriminate].
  intros _. exists m, sender_id. split; [reflexivity | exact Hs].
Qed.

(** C10.  An outgoing private message is never forwarded by the user rule:
    whatever the filter sets hold, [_should_forward] can accept it through
    the group rule only, and it refuses it when the message is not a group
    message, even if its sender is a forwarded user and is not ignored. *)
Theorem outgoing_private_not_forwarded (h : OutputHandler) (w : World)
    (ev : MessageEvent) (m : TL.Message) (sender_id : Z) :
  message ev = Some m ->
  get_sender_id w m = Ok sender_id ->
  TL.is_private m = true ->
  TL.out m = true ->
  (_should_forward h w ev = Ok true ->
   TL.is_group m = true /\ mem_opt (TL.chat_id m) (forward_group_ids h) = true)
  /\ (TL.is_group m = false -> _should_forward h w ev = Ok false).
Proof.
  intros Hm Hs Hp Ho.
  rewrite (should_forward_eval h w ev m sender_id Hm Hs), Hp, Ho. simpl.
  split.
  - intros H. injection H as H. apply andb_true_iff in H as [_ H].
    apply andb_true_iff in H. exact H.
  - intros Hg. rewrite Hg. simpl. rewrite andb_false_r. reflexivity.
Qed.

Lemma outgoing_private_not_forwarded_witness :
  mem 7 (forward_user_ids sample_handler) = true
  /\ mem 7 (ignored_ids sample_handler) = false
  /\ _should_forward sample_handler calm_world {| message := Some outgoing_message |}
     = Ok false.
Proof.
  split; [vm_compute; reflexivity |]. split; [vm_compute; reflexivity |].
  apply (outgoing_private_not_forwarded sample_handler calm_world
           {| message := Some outgoing_message |} outgoing_message 7);
    reflexivity.
Defined.

(** ** The deletion rule *)

(** With a chat id on the event the peer is not read. *)
Lemma resolved_chat_id_known (ev : DeletedEvent) (c : Z) :
  chat_id ev = Some c -> resolved_chat_id ev = Ok (Some c).
Proof. intros Hc. unfold resolved_chat_id. rewrite Hc. reflexivity. Qed.

(** Without chat id the peer is read, which an event of Telethon's class
    does not have. *)
Lemma resolved_chat_id_unknown (ev : DeletedEvent) :
  chat_id ev = None -> peer ev = None -> resolved_chat_id ev = Exn no_peer_error.
Proof. intros Hc Hp. unfold resolved_chat_id. rewrite Hc, Hp. reflexivity. Qed.

(** The chat id is taken from the event.  Without it the read of the peer
    fails on an event of Telethon's class; on an object that has a peer, a
    channel id is prefixed with [-100], a basic group id is negated, a user
    peer leaves the chat unknown. *)
Example resolved_chat_id_samples :
  resolved_chat_id {| deleted_ids := [1]; chat_id := Some (-1002); peer := None |}
  = Ok (Some (-1002))
  /\ resolved_chat_id {| deleted_ids := [1]; chat_id := None; peer := None |}
     = Exn no_peer_error
  /\ resolved_chat_id
       {| deleted_ids := [1]; chat_id := None;
          peer := Some (Some (TL.PeerChannel 1234)) |}
     = Ok (Some (-1001234))
  /\ resolved_chat_id
       {| deleted_ids := [1]; chat_id := None;
          peer := Some (Some (TL.PeerChat 1002)) |}
     = Ok (Some (-1002))
  /\ resolved_chat_id
       {| deleted_ids := [1]; chat_id := None; peer := Some (Some (TL.PeerUser 7)) |}
     = Ok None.
Proof. vm_compute. auto. Qed.

(** For an event with a chat id other than 0 the rule decides as the
    specification words it: not logged when the chat is ignored, else logged
    when the chat is among the forwarded groups, not logged otherwise. *)
Lemma should_log_deletion_known_chat (h : OutputHandler) (ev : DeletedEvent)
    (c : Z) :
  chat_id ev = Some c ->
  c <> 0 ->
  _should_log_deletion h ev = Ok (spec_should_log_deletion h (Some c)).
Proof.
  intros Hc Hnz. unfold _should_log_deletion, spec_should_log_deletion.
  rewrite (resolved_chat_id_known ev c Hc).
  assert (Ht : truthy_int (Some c) = true) by (apply truthy_int_Some; exact Hnz).
  rewrite Ht. simpl.
  destruct (mem c (ignored_ids h)); [reflexivity |].
  destruct (mem c (forward_group_ids h)); reflexivity.
Qed.

(** The rule on the events of the forwarded group -1002 and of the ignored
    chat 13. *)
Example should_log_deletion_samples :
  _should_log_deletion sample_handler group_deletion = Ok true
  /\ _should_log_deletion sample_handler
       {| deleted_ids := [1]; chat_id := Some 13; peer := None |} = Ok false
  /\ _should_log_deletion sample_handler
       {| deleted_ids := [1]; chat_id := Some 99; peer := None |} = Ok false.
Proof. vm_compute. auto. Qed.

(** ** Running the embedding *)

Create HintDb control.
#[global] Hint Unfold def_ call eval render ask mbind M_bind bind mret M_ret ret
  pass return_ raise try_except finally_ modify get_store
  datetime_now asyncio_sleep db_get_message_by_id mention
  log_sender_send_message client_send_file retrieve_media ctx_enter ctx_exit
  exit_quietly then_aexit async_with_prepare_media : control.

Ltac unfold_control := repeat autounfold with control in *.

(** ** The retrying lookup *)

(** C6.  [_get_message_from_db_with_retry] reads the store at most twice.
    A record found by the first read is returned at once when no chat is
    expected or its chat id equals the expected one, and is reported as not
    found when its chat id differs; only when the first read finds nothing
    does the function wait the fixed delay of half a second and read once
    more, with the same verdicts, an absent record being not found.  A
    failing read is not found either.  No third read happens, and the store
    of the handler is untouched. *)
Theorem lookup_reads_at_most_twice (w : World) (s : Store) (t : nat)
    (message_id : Z) (expected_chat_id : option Z) :
  let first := get_message_by_id w t message_id in
  let second := get_message_by_id w (2 + t) message_id in
  let verdict (m : Models.Message) :=
    match expected_chat_id with
    | None => Some m
    | Some c => if Models.chat_id m =? c then Some m else None
    end in
  let '(r, s', evs) :=
    _get_message_from_db_with_retry message_id expected_chat_id w s t in
  (count is_store_read evs <= 2)%nat
  /\ s' = s
  /\ match first with
     | Ok (Some m) =>
         evs = [EvGetMessage message_id first]
         /\ r = Ok (verdict m)
     | Ok None =>
         evs = [EvGetMessage message_id first; EvSleep 500;
                EvGetMessage message_id second]
         /\ r = Ok (match second with
                    | Ok (Some m) => verdict m
                    | _ => None
                    end)
     | Exn _ =>
         evs = [EvGetMessage message_id first] /\ r = Ok None
     end.
Proof.
  unfold _get_message_from_db_with_retry, chat_matches. unfold_control. cbn.
  destruct (get_message_by_id w t message_id) as [[m |] | e]; cbn.
  - destruct expected_chat_id as [c |]; [destruct (Models.chat_id m =? c) |];
      cbn; repeat split; lia.
  - destruct (get_message_by_id w (S (S t)) message_id) as [[m |] | e]; cbn.
    + destruct expected_chat_id as [c |]; [destruct (Models.chat_id m =? c) |];
        cbn; repeat split; lia.
    + repeat split; lia.
    + repeat split; lia.
  - repeat split; lia.
Qed.

(** A record that reaches the store late is found by the second read, and
    is not found when another chat is expected. *)
Example lookup_of_late_record :
  _get_message_from_db_with_retry 5 (Some 7) late_store_world initial_store 0%nat
  = (Ok (Some archived_sticker), initial_store,
     [EvGetMessage 5 (Ok None); EvSleep 500;
      EvGetMessage 5 (Ok (Some archived_sticker))])
  /\ _get_message_from_db_with_retry 5 (Some 8) late_store_world initial_store 0%nat
     = (Ok None, initial_store,
        [EvGetMessage 5 (Ok None); EvSleep 500;
         EvGetMessage 5 (Ok (Some archived_sticker))])
  /\ _get_message_from_db_with_retry 5 None lost_file_world initial_store 0%nat
     = (Ok (Some archived_sticker), initial_store,
        [EvGetMessage 5 (Ok (Some archived_sticker))]).
Proof. vm_compute. auto. Qed.

(** The lookup never raises. *)
Lemma lookup_returns (w : World) (s : Store) (t : nat) (message_id : Z)
    (expected_chat_id : option Z) :
  exists found evs,
    _get_message_from_db_with_retry message_id expected_chat_id w s t
    = (Ok found, s, evs)
    /\ forallb (fun e => is_store_read e || match e with EvSleep _ => true | _ => false end)
         evs = true.
Proof.
  unfold _get_message_from_db_with_retry. unfold_control. cbn.
  destruct (get_message_by_id w t message_id) as [[m |] | e]; cbn.
  - destruct (chat_matches expected_chat_id m); cbn; eexists _, _; split; reflexivity.
  - destruct (get_message_by_id w (S (S t)) message_id) as [[m |] | e]; cbn.
    + destruct (chat_matches expected_chat_id m); cbn; eexists _, _; split; reflexivity.
    + eexists _, _; split; reflexivity.
    + eexists _, _; split; reflexivity.
  - eexists _, _; split; reflexivity.
Qed.

(** ** The rate limiter *)


Lemma popleft_while_Forall (P : Z -> Prop) (cutoff : Z) (q : list Z) :
  Forall P q -> Forall P (popleft_while cutoff q).
Proof.
  induction 1 as [| x q Hx Hq IH]; simpl; [constructor |].
  destruct (x <=? cutoff); [exact IH | constructor; assumption].
Qed.


(** One call of the rate limiter, step by step: refused in the cooldown
    with the store untouched; else the old entries are evicted and the call
    is recorded, and either the threshold is exceeded, the pause is set and
    the notice is sent once, or the call is admitted. *)
Lemma gate_step (h : OutputHandler) (w : World) (s : Store) (t : nat) :
  let now := utcnow w t in
  _apply_deletion_rate_limit h w s t =
    if in_cooldown s now then (Ok false, s, [EvNow now])
    else if deletion_rate_limit_threshold h <? Z.of_nat (length (recorded h s now)) then
      (Ok false,
       {| _deletion_timestamps := recorded h s now;
          _rate_limit_paused_until := Some (now + deletion_pause_duration h);
          media_context := media_context s |},
       EvNow now
       :: (if log_sender h
           then [EvSendMessage (pause_notice h w) None
                   (send_message w (S t) (pause_notice h w) None)]
           else []))
    else
      (Ok true,
       {| _deletion_timestamps := recorded h s now;
          _rate_limit_paused_until := None;
          media_context := media_context s |},
       [EvNow now]).
Proof.
  destruct s as [q paused mc].
  unfold _apply_deletion_rate_limit, in_cooldown, recorded. unfold_control. cbn.
  destruct paused as [p |]; cbn.
  - destruct (Z.ltb_spec (utcnow w t) p) as [Hlt | Hge]; cbn; [reflexivity |].
    destruct (Z.leb_spec p (utcnow w t)) as [_ | Hlt]; [| lia]. cbn.
    destruct (deletion_rate_limit_threshold h <? _); cbn; [| reflexivity].
    destruct (log_sender h); cbn; [| reflexivity].
    destruct (send_message w (S t) (pause_notice h w) None) as [[] | e]; reflexivity.
  - destruct (deletion_rate_limit_threshold h <? _); cbn; [| reflexivity].
    destruct (log_sender h); cbn; [| reflexivity].
    destruct (send_message w (S t) (pause_notice h w) None) as [[] | e]; reflexivity.
Qed.

(** The limiter never raises. *)
Lemma gate_returns (h : OutputHandler) (w : World) (s : Store) (t : nat) :
  exists allowed s' evs, _apply_deletion_rate_limit h w s t = (Ok allowed, s', evs).
Proof.
  rewrite gate_step. cbv zeta.
  destruct (in_cooldown s (utcnow w t)); [eexists _, _, _; reflexivity |].
  destruct (deletion_rate_limit_threshold h <? _); eexists _, _, _; reflexivity.
Qed.

(** A run of calls falls through with the list of verdicts. *)
Lemma allow_n_normal {R} (h : OutputHandler) (n : nat) (w : World) (s : Store)
    (t : nat) :
  exists bs s' evs, allow_n (R := R) h n w s t = (Normal bs, s', evs).
Proof.
  revert s t. induction n as [| n IH]; intros s t.
  - eexists _, _, _. reflexivity.
  - cbn [allow_n]. unfold_control.
    destruct (gate_returns h w s t) as (b & s1 & e1 & Hgate). rewrite Hgate.
    destruct (IH s1 (length e1 + t)%nat) as (bs & s2 & e2 & Hrest). rewrite Hrest.
    eexists _, _, _. reflexivity.
Qed.

(** A run of calls is the first call followed by the rest of the run. *)
Lemma allow_calls_O (h : OutputHandler) (w : World) (s : Store) (t : nat) :
  allow_calls h 0 w s t = (Ok [], s, []).
Proof. reflexivity. Qed.

Lemma allow_calls_S (h : OutputHandler) (n : nat) (w : World) (s : Store) (t : nat) :
  allow_calls h (S n) w s t =
    let '(r, s1, e1) := _apply_deletion_rate_limit h w s t in
    match r with
    | Ok b =>
        let '(rs, s2, e2) := allow_calls h n w s1 (length e1 + t)%nat in
        (match rs with Ok bs => Ok (b :: bs) | Exn e => Exn e end, s2, e1 ++ e2)
    | Exn e => (Exn e, s1, e1)
    end.
Proof.
  unfold allow_calls. cbn [allow_n]. unfold_control.
  destruct (_apply_deletion_rate_limit h w s t) as [[[b | e] s1] e1]; [| reflexivity].
  destruct (allow_n_normal (R := list bool) h n w s1 (length e1 + t)%nat)
    as (bs & s2 & e2 & Hrest).
  rewrite Hrest. cbn. rewrite ?app_nil_r. reflexivity.
Qed.

Section BoundedWindow.

Variable h : OutputHandler.
Variable w : World.

Hypothesis threshold_nonneg : 0 <= deletion_rate_limit_threshold h.
Hypothesis pause_covers_window :
  deletion_rate_limit_window h <= deletion_pause_duration h.
Hypothesis clock_monotone :
  forall t1 t2, (t1 <= t2)%nat -> utcnow w t1 <= utcnow w t2.





Lemma recorded_Forall (P : Z -> Prop) (s : Store) (now : Z) :
  Forall P (_deletion_timestamps s) -> P now -> Forall P (recorded h s now).
Proof.
  intros Hq Hnow. unfold recorded. apply Forall_app. split.
  - apply popleft_while_Forall. exact Hq.
  - constructor; [exact Hnow | constructor].
Qed.





End BoundedWindow.




(** ** The pause notice *)

#[global] Arguments same_text : simpl never.

Lemma same_text_refl (a : pystr) : same_text a a = true.
Proof. unfold same_text. apply bool_decide_eq_true. reflexivity. Qed.



Lemma count_app (p : Event -> bool) (evs1 evs2 : list Event) :
  count p (evs1 ++ evs2) = (count p evs1 + count p evs2)%nat.
Proof.
  unfold count. rewrite List.filter_app, length_app. reflexivity.
Qed.

Lemma count_cons (p : Event -> bool) (e : Event) (evs : list Event) :
  count p (e :: evs) = ((if p e then 1 else 0) + count p evs)%nat.
Proof.
  unfold count. simpl. destruct (p e); reflexivity.
Qed.





(** ** The formatter *)

Lemma truncate_text_short (text_content : pystr) :
  (length text_content <= body_cap)%nat -> truncate_text text_content = text_content.
Proof.
  intros H. unfold truncate_text.
  destruct (Z.ltb_spec (Z.of_nat body_cap) (Z.of_nat (length text_content)));
    [lia | reflexivity].
Qed.

Lemma truncate_text_long (text_content : pystr) :
  (body_cap < length text_content)%nat ->
  truncate_text text_content = take body_cap text_content ++ truncation_marker
  /\ length (take body_cap text_content) = body_cap.
Proof.
  intros H. unfold truncate_text.
  destruct (Z.ltb_spec (Z.of_nat body_cap) (Z.of_nat (length text_content)));
    [| lia].
  split; [reflexivity |]. rewrite length_take. lia.
Qed.

(** The formatter returns a text whatever the collaborators do, leaves the
    store alone and only looks up mentions.  The text is one of the three
    error texts, or the entry built from what was gathered. *)
Lemma format_output_message_returns (h : OutputHandler) (event_type : pystr)
    (message_data : MessageData) (is_deleted : bool) (w : World) (s : Store)
    (t : nat) :
  exists out evs,
    _format_output_message h event_type message_data is_deleted w s t
    = (Ok out, s, evs)
    /\ forallb is_mention evs = true
    /\ (out = client_unset_text
        \/ out = format_error_text message_data
        \/ (exists type_repr,
              message_data = Invalid type_repr /\ out = invalid_type_text type_repr)
        \/ (exists g text_content,
              body_text message_data = Some text_content
              /\ out = format_gathered w event_type message_data is_deleted g
                         text_content)).
Proof.
  unfold _format_output_message. unfold_control.
  destruct (client h); cbn; [| eexists _, _; repeat split; left; reflexivity].
  destruct message_data as [m | m | type_repr]; cbn.
  - destruct (get_sender_id w m) as [sender_id | e]; cbn;
      [| eexists _, _; repeat split; right; left; reflexivity].
    destruct (create_mention w t sender_id (TL.id m)) as [sm | e]; cbn;
      [| eexists _, _; repeat split; right; left; reflexivity].
    destruct (TL.chat_id m) as [c |]; cbn.
    + destruct (negb (c =? 0) && negb (TL.is_private m)); cbn.
      * destruct (create_mention w (S t) c (TL.id m)) as [cm | e]; cbn;
          [| eexists _, _; repeat split; right; left; reflexivity].
        eexists _, _. repeat split. right. right. right.
        eexists _, _. split; reflexivity.
      * eexists _, _. repeat split. right. right. right.
        eexists _, _. split; reflexivity.
    + eexists _, _. repeat split. right. right. right.
      eexists _, _. split; reflexivity.
  - destruct (create_mention w t (Models.from_id m) (Models.id m)) as [sm | e]; cbn;
      [| eexists _, _; repeat split; right; left; reflexivity].
    destruct (negb (Models.chat_id m =? 0) && negb (Models.is_private m)); cbn.
    + destruct (create_mention w (S t) (Models.chat_id m) (Models.id m)) as [cm | e];
        cbn; [| eexists _, _; repeat split; right; left; reflexivity].
      destruct (Models.text m) as [text_content |] eqn:Htext; cbn.
      * eexists _, _. repeat split. right. right. right.
        eexists _, _. split; reflexivity.
      * eexists _, _. repeat split. right. left. reflexivity.
    + destruct (Models.text m) as [text_content |] eqn:Htext; cbn.
      * eexists _, _. repeat split. right. right. right.
        eexists _, _. split; reflexivity.
      * eexists _, _. repeat split. right. left. reflexivity.
  - eexists _, _. repeat split. right. right. left.
    eexists. split; reflexivity.
Qed.

(** *** Escaping *)

Lemma replace_escape_app (c : Z) (a b : pystr) :
  replace_escape c (a ++ b) = replace_escape c a ++ replace_escape c b.
Proof. unfold replace_escape. apply flat_map_app. Qed.

(** The three passes of line 485 amount to one pass. *)
Lemma escape_markdown_cons (c : Z) (s : pystr) :
  escape_markdown (c :: s)
  = (if is_markdown_special c then [92; c] else [c]) ++ escape_markdown s.
Proof.
  unfold escape_markdown, is_markdown_special.
  change (c :: s) with ([c] ++ s). rewrite !replace_escape_app.
  f_equal. unfold replace_escape. cbn.
  destruct (Z.eqb_spec c 42) as [-> | H42]; [reflexivity |].
  cbn. destruct (Z.eqb_spec c 95) as [-> | H95]; [reflexivity |].
  cbn. destruct (Z.eqb_spec c 96) as [-> | H96]; reflexivity.
Qed.

Lemma escape_markdown_app (a b : pystr) :
  escape_markdown (a ++ b) = escape_markdown a ++ escape_markdown b.
Proof.
  unfold escape_markdown. rewrite !replace_escape_app. reflexivity.
Qed.

Lemma escape_markdown_length (s : pystr) :
  length (escape_markdown s)
  = (length s + length (List.filter is_markdown_special s))%nat.
Proof.
  induction s as [| c s IH]; [reflexivity |].
  rewrite escape_markdown_cons, length_app, IH. cbn.
  destruct (is_markdown_special c); cbn; lia.
Qed.

Lemma filter_length_le {A} (p : A -> bool) (l : list A) :
  (length (List.filter p l) <= length l)%nat.
Proof.
  induction l as [| x l IH]; cbn; [lia |]. destruct (p x); cbn; lia.
Qed.





(** ** Media delivery *)

(** One step of a case analysis on the answers of the collaborators: the
    innermost scrutinee is split. *)
Ltac case_step :=
  match goal with
  | |- context [match ?x with _ => _ end] =>
      lazymatch x with
      | context [match _ with _ => _ end] => fail
      | _ => destruct x eqn:?
      end
  end.

Ltac run_cases := repeat (case_step; cbn).

Lemma helpers_ready_inv (h : OutputHandler) :
  helpers_ready h = true ->
  client h = true /\ log_sender h = true /\ formatter h = true
  /\ restricted_media_handler h = true.
Proof.
  unfold helpers_ready. intros H.
  apply andb_true_iff in H as [H Hr]. apply andb_true_iff in H as [H Hf].
  apply andb_true_iff in H as [Hc Hl]. auto.
Qed.

(** The sticker branch (lines 524-577), which a message reaches only when
    its media object carries the attribute list itself: unless the stored
    file was sent, the fresh fetch of the media is started; unless a file
    was sent at all, the text-only entry marked as sent without its media is
    sent after the fetch; and the delivery returns normally whatever the
    collaborators do. *)
Lemma attribute_sticker_falls_through (h : OutputHandler) (w : World) (s : Store)
    (t : nat) (text : pystr) (message : TL.Message) (media : TL.MessageMedia)
    (stored : option Models.Message) :
  helpers_ready h = true ->
  TL.media message = Some media ->
  is_sticker media = true ->
  get_message_by_id w t (TL.id message) = Ok stored ->
  exists s' evs,
    _send_message_with_media h text message w s t = (Ok tt, s', evs)
    /\ (existsb is_sent_file (until_prepare evs) = false ->
        existsb is_prepare evs = true)
    /\ (existsb is_sent_file evs = false ->
        existsb (is_text_send (media_not_sent_text text)) (after_prepare evs) = true).
Proof.
  intros Hready Hmedia Hsticker Hstored.
  destruct (helpers_ready_inv h Hready) as (Hc & Hl & _ & Hr).
  unfold _send_message_with_media, send_saved_sticker, send_fetched_sticker,
    release_media_context, release_media_context_at_end.
  rewrite Hc, Hl, Hr, Hmedia, Hsticker. unfold_control. cbn. rewrite Hstored. cbn.
  run_cases.
  all: eexists _, _; (split; [reflexivity |]); cbn;
    rewrite ?same_text_refl, ?orb_true_r;
    split; intros; try discriminate; reflexivity.
Qed.

(** Line 521 looks for the sticker attribute on the media object itself,
    and no media object of Telethon has attributes: whatever its document
    says, it is not taken for a sticker. *)
Lemma telethon_media_is_no_sticker (media : TL.MessageMedia) :
  TL.attributes media = None -> is_sticker media = false.
Proof. intros H. unfold is_sticker. rewrite H. reflexivity. Qed.

(** C1.  A sticker as Telethon delivers it never reaches the sticker
    branch.  In a chat that allows forwarding, with the helpers in place and
    a store that answers, its delivery is that of ordinary media: it starts
    with the store read, the media is never fetched afresh and
    [client.send_file] is never used, however the stored file fares; unless
    a send with the file attached went through, the text-only entry is sent
    with the warning that the media may not have been sent. *)
Theorem telethon_sticker_is_not_fetched_afresh (h : OutputHandler) (w : World)
    (s : Store) (t : nat) (text : pystr) (message : TL.Message)
    (media : TL.MessageMedia) (stored : option Models.Message) :
  helpers_ready h = true ->
  TL.media message = Some media ->
  TL.attributes media = None ->
  TL.noforwards message = false ->
  get_message_by_id w t (TL.id message) = Ok stored ->
  is_sticker media = false
  /\ exists s' tail,
       _send_message_with_media h text message w s t
       = (Ok tt, s', EvGetMessage (TL.id message) (Ok stored) :: tail)
       /\ existsb is_prepare tail = false
       /\ existsb is_sent_file tail = false
       /\ (existsb is_attachment_sent tail = false ->
           existsb
             (is_text_send
                ([9888; 65039; 32; 42; 42; 23186; 20307; 21487; 33021; 26410; 21457; 36865;
            42; 42; 32; 9888; 65039; 10; 10]
                   ++ text
                   ++ [10; 10; 40; 21407; 22987; 23186; 20307; 26410; 33021; 25104; 21151;
               22788; 29702; 25110; 21457; 36865; 41]))
             tail = true).
Proof.
  intros Hready Hmedia Hplain Hrestricted Hstored.
  pose proof (telethon_media_is_no_sticker media Hplain) as Hsticker.
  split; [exact Hsticker |].
  change ([9888; 65039; 32; 42; 42; 23186; 20307; 21487; 33021; 26410; 21457; 36865;
            42; 42; 32; 9888; 65039; 10; 10]
          ++ text
          ++ [10; 10; 40; 21407; 22987; 23186; 20307; 26410; 33021; 25104; 21151;
               22788; 29702; 25110; 21457; 36865; 41])
    with (media_not_sent_text text).
  destruct (helpers_ready_inv h Hready) as (Hc & Hl & _ & Hr).
  unfold _send_message_with_media, send_stored_media, release_media_context,
    release_media_context_at_end.
  rewrite Hc, Hl, Hr, Hmedia, Hsticker, Hrestricted. unfold_control. cbn.
  rewrite Hstored. cbn.
  run_cases.
  all: eexists _, _; (split; [reflexivity |]); cbn;
    rewrite ?same_text_refl, ?orb_true_r; split_and!;
    try reflexivity; try (intros; discriminate); try (intros; reflexivity).
Qed.

Lemma telethon_sticker_is_not_fetched_afresh_witness :
  helpers_ready sample_handler = true
  /\ TL.media telethon_sticker_message = Some telethon_sticker
  /\ TL.document telethon_sticker = Some [TL.DocumentAttributeSticker]
  /\ TL.attributes telethon_sticker = None
  /\ TL.noforwards telethon_sticker_message = false
  /\ get_message_by_id lost_file_world 0 (TL.id telethon_sticker_message)
     = Ok (Some archived_sticker)
  /\ is_sticker telethon_sticker = false
  /\ exists s' tail,
       _send_message_with_media sample_handler (lit "entry") telethon_sticker_message
         lost_file_world initial_store 0%nat
       = (Ok tt, s', EvGetMessage 5 (Ok (Some archived_sticker)) :: tail)
       /\ existsb is_prepare tail = false
       /\ existsb is_sent_file tail = false
       /\ (existsb is_attachment_sent tail = false ->
           existsb
             (is_text_send
                ([9888; 65039; 32; 42; 42; 23186; 20307; 21487; 33021; 26410; 21457; 36865;
            42; 42; 32; 9888; 65039; 10; 10]
                   ++ lit "entry"
                   ++ [10; 10; 40; 21407; 22987; 23186; 20307; 26410; 33021; 25104; 21151;
               22788; 29702; 25110; 21457; 36865; 41]))
             tail = true).
Proof.
  split; [reflexivity |]. split; [reflexivity |]. split; [reflexivity |].
  split; [reflexivity |]. split; [reflexivity |]. split; [reflexivity |].
  exact (telethon_sticker_is_not_fetched_afresh sample_handler lost_file_world
           initial_store 0%nat (lit "entry") telethon_sticker_message
           telethon_sticker (Some archived_sticker)
           eq_refl eq_refl eq_refl eq_refl eq_refl).
Defined.

(** The delivery of a Telethon sticker whose stored file is gone: store,
    stored file, release, and the text with the warning; the media is not
    fetched afresh. *)
Example telethon_sticker_lost_file :
  let ctx := {| ctx_path := lit "media/5.webp"; ctx_restricted := false |} in
  _send_message_with_media sample_handler (lit "entry") telethon_sticker_message
    lost_file_world initial_store 0%nat
  = (Ok tt, initial_store,
     [EvGetMessage 5 (Ok (Some archived_sticker));
      EvRetrieve (lit "media/5.webp") false (Ok tt);
      EvEnter ctx (Exn (FileNotFoundError (lit "media/5.webp")));
      EvExit ctx (Ok tt);
      EvSendMessage (media_not_sent_text (lit "entry")) None (Ok tt)]).
Proof. vm_compute. reflexivity. Qed.

(** The whole chain of the sticker branch, on a media object that carries
    the sticker attribute itself, when the stored file is gone and the fresh
    fetch yields nothing: store, stored file, release, fetch, marked text. *)
Example sticker_delivery_lost_file :
  let ctx := {| ctx_path := lit "media/5.webp"; ctx_restricted := false |} in
  _send_message_with_media sample_handler (lit "entry") sticker_message
    lost_file_world initial_store 0%nat
  = (Ok tt, initial_store,
     [EvGetMessage 5 (Ok (Some archived_sticker));
      EvRetrieve (lit "media/5.webp") false (Ok tt);
      EvEnter ctx (Exn (FileNotFoundError (lit "media/5.webp")));
      EvExit ctx (Ok tt);
      EvPrepare 5 (Ok tt);
      EvAEnter (Ok None);
      EvAExit None (Ok false);
      EvSendMessage (media_not_sent_text (lit "entry")) None (Ok tt)]).
Proof. vm_compute. reflexivity. Qed.

(** With the helpers in place the delivery returns normally for every
    message and every behaviour of the collaborators, and has tried at least
    one send. *)
Lemma send_message_with_media_returns (h : OutputHandler) (w : World) (s : Store)
    (t : nat) (text : pystr) (message : TL.Message) :
  helpers_ready h = true ->
  exists s' evs,
    _send_message_with_media h text message w s t = (Ok tt, s', evs)
    /\ existsb is_send evs = true.
Proof.
  intros Hready.
  destruct (helpers_ready_inv h Hready) as (Hc & Hl & _ & Hr).
  unfold _send_message_with_media, send_saved_sticker, send_fetched_sticker,
    send_restricted_media, send_stored_media,
    release_media_context, release_media_context_at_end.
  rewrite Hc, Hl, Hr. unfold_control. cbn.
  run_cases.
  all: eexists _, _; (split; [reflexivity |]); cbn; rewrite ?orb_true_r; reflexivity.
Qed.

(** ** The event router *)

Lemma existsb_false_of_forallb (p q : Event -> bool) (evs : list Event) :
  (forall e, p e = true -> q e = false) ->
  forallb p evs = true -> existsb q evs = false.
Proof.
  intros Hpq. induction evs as [| e evs IH]; simpl; [reflexivity |].
  intros H. apply andb_true_iff in H as [He Hevs].
  rewrite (Hpq e He), (IH Hevs). reflexivity.
Qed.

Lemma existsb_app_false (q : Event -> bool) (evs1 evs2 : list Event) :
  existsb q evs1 = false -> existsb q evs2 = false -> existsb q (evs1 ++ evs2) = false.
Proof.
  intros H1 H2. rewrite existsb_app, H1, H2. reflexivity.
Qed.

(** Logging one deleted id reads the store, looks up mentions and sends;
    it never consults the clock of the rate limiter and leaves the store of
    the handler alone. *)
Lemma log_deleted_id_no_clock (h : OutputHandler) (chat : option Z) (msg_id : Z)
    (w : World) (s : Store) (t : nat) :
  exists o evs,
    log_deleted_id h chat msg_id w s t = (o, s, evs)
    /\ existsb is_clock_read evs = false.
Proof.
  unfold log_deleted_id. unfold_control.
  destruct (lookup_returns w s t msg_id chat) as (found & evs1 & Hlookup & Hevs1).
  rewrite Hlookup.
  assert (Hclock1 : existsb is_clock_read evs1 = false).
  { apply (existsb_false_of_forallb _ is_clock_read evs1) in Hevs1; [exact Hevs1 |].
    intros [] He; try discriminate He; reflexivity. }
  destruct found as [original |].
  - destruct (format_output_message_returns h label_deleted (Archived original) true
                w s (length evs1 + t)%nat) as (out & evs2 & Hformat & Hevs2 & _).
    rewrite Hformat.
    assert (Hclock2 : existsb is_clock_read evs2 = false).
    { apply (existsb_false_of_forallb _ is_clock_read evs2) in Hevs2; [exact Hevs2 |].
      intros [] He; try discriminate He; reflexivity. }
    destruct (log_sender h); cbn.
    + destruct (send_message w _ out None) as [[] | e]; eexists _, _;
        (split; [reflexivity |]);
        rewrite !existsb_app, Hclock1, Hclock2; reflexivity.
    + eexists _, _. split; [reflexivity |].
      rewrite !existsb_app, Hclock1, Hclock2. reflexivity.
  - destruct chat as [c |]; cbn.
    + destruct (negb (c =? 0) && client h); cbn.
      * destruct (create_mention w (length evs1 + t)%nat c msg_id) as [cm | e]; cbn;
          destruct (log_sender h); cbn;
          try (destruct (send_message w _ _ None) as [[] | e']);
          eexists _, _; (split; [reflexivity |]);
          rewrite !existsb_app, Hclock1; reflexivity.
      * destruct (log_sender h); cbn;
          try (destruct (send_message w _ _ None) as [[] | e']);
          eexists _, _; (split; [reflexivity |]);
          rewrite !existsb_app, Hclock1; reflexivity.
    + destruct (log_sender h); cbn;
        try (destruct (send_message w _ _ None) as [[] | e']);
        eexists _, _; (split; [reflexivity |]);
        rewrite !existsb_app, Hclock1; reflexivity.
Qed.

Lemma log_deleted_ids_no_clock (h : OutputHandler) (chat : option Z) (ids : list Z)
    (w : World) (s : Store) (t : nat) :
  exists o evs,
    for_each ids (log_deleted_id h chat) w s t = (o, s, evs)
    /\ existsb is_clock_read evs = false.
Proof.
  revert t. induction ids as [| msg_id ids IH]; intros t.
  - eexists _, _. split; reflexivity.
  - cbn [for_each]. unfold_control.
    destruct (log_deleted_id_no_clock h chat msg_id w s t) as (o & evs1 & Hone & Hclock1).
    rewrite Hone. destruct o as [[] | r | e].
    + destruct (IH (length evs1 + t)%nat) as (o2 & evs2 & Hrest & Hclock2).
      rewrite Hrest. eexists _, _. split; [reflexivity |].
      apply existsb_app_false; assumption.
    + eexists _, _. split; [reflexivity | exact Hclock1].
    + eexists _, _. split; [reflexivity | exact Hclock1].
Qed.

(** The calls of one check of the rate limiter: the clock is read first
    and once, the store is not read, and nothing is sent but, when step 5
    fires, the pause notice. *)
Lemma gate_events (h : OutputHandler) (w : World) (s : Store) (t : nat) :
  exists verdict s1 tail,
    _apply_deletion_rate_limit h w s t = (Ok verdict, s1, EvNow (utcnow w t) :: tail)
    /\ (tail = [] \/ exists r, tail = [EvSendMessage (pause_notice h w) None r]).
Proof.
  rewrite gate_step. cbv zeta.
  destruct (in_cooldown s (utcnow w t)).
  - eexists _, _, _. split; [reflexivity | left; reflexivity].
  - destruct (deletion_rate_limit_threshold h <? _).
    + eexists _, _, _. split; [reflexivity |].
      destruct (log_sender h); [right; eexists; reflexivity | left; reflexivity].
    + eexists _, _, _. split; [reflexivity | left; reflexivity].
Qed.

(** C8.  A deletion event that the logging rule lets through goes through
    the rate limiter exactly once, whatever the number of ids it carries:
    the clock read of the limiter is its first call, no second one follows,
    and the limiter itself reads no record and sends nothing but its pause
    notice.  If the limiter refuses, the event is dropped whole: nothing
    more is called, no record is read and no entry is sent for any of its
    ids.  An event that the logging rule keeps out, the filter standing
    before the limiter, calls nothing at all. *)
Theorem deletion_gated_once (h : OutputHandler) (w : World) (s : Store) (t : nat)
    (ev : DeletedEvent) :
  let '(r, s', evs) := _process_deleted_message h ev w s t in
  match _should_log_deletion h ev with
  | Ok true =>
      let '(verdict, s1, gate) := _apply_deletion_rate_limit h w s t in
      exists tail rest,
        gate = EvNow (utcnow w t) :: tail
        /\ (tail = [] \/ exists r', tail = [EvSendMessage (pause_notice h w) None r'])
        /\ evs = gate ++ rest
        /\ s' = s1
        /\ count is_clock_read evs = 1%nat
        /\ (verdict = Ok false -> rest = [] /\ r = Ok tt)
  | _ => evs = [] /\ s' = s
  end.
Proof.
  unfold _process_deleted_message. unfold_control.
  destruct (_should_log_deletion h ev) as [[|] | e]; cbn;
    [| split; reflexivity | split; reflexivity].
  destruct (gate_events h w s t) as (verdict & s1 & tail & Hgate & Htail).
  rewrite Hgate.
  assert (Hcount : count is_clock_read (EvNow (utcnow w t) :: tail) = 1%nat).
  { rewrite count_cons. destruct Htail as [-> | [r' ->]]; reflexivity. }
  destruct verdict; cbn -[count].
  - destruct (log_deleted_ids_no_clock h (chat_id ev) (deleted_ids ev) w s1
                (S (length tail + t))) as (o & rest & Hloop & Hclock).
    rewrite Hloop.
    assert (Hrest : count is_clock_read rest = 0%nat).
    { unfold count. clear - Hclock. induction rest as [| e rest IH]; [reflexivity |].
      simpl in *. apply orb_false_iff in Hclock as [He Hrest].
      rewrite He. apply IH. exact Hrest. }
    destruct o as [[] | [] | e]; cbn -[count]; rewrite ?app_nil_r;
      exists tail, rest; split_and!; try reflexivity; try exact Htail;
      try (intros Hv; discriminate Hv);
      change (EvNow (utcnow w t) :: tail ++ rest)
        with ((EvNow (utcnow w t) :: tail) ++ rest);
      rewrite count_app, Hcount, Hrest; reflexivity.
  - exists tail, []. rewrite app_nil_r.
    split; [reflexivity |]. split; [exact Htail |].
    split; [reflexivity |]. split; [reflexivity |].
    split; [exact Hcount |]. intros _. split; reflexivity.
Qed.

(** A deletion event in an ignored chat is kept out by the logging rule:
    nothing is called for it. *)
Example rejected_deletion_calls_nothing :
  let ev := {| deleted_ids := [1; 2; 3]; chat_id := Some 13; peer := None |} in
  _should_log_deletion sample_handler ev = Ok false
  /\ _process_deleted_message sample_handler ev calm_world initial_store 0%nat
     = (Ok tt, initial_store, []).
Proof. vm_compute. auto. Qed.

(** C5.  A deletion event without chat id, as Telethon builds it for a
    private chat or a basic group, has no [peer] to read: line 245 raises
    [AttributeError], for every configuration.  The rule gives no answer
    where the specification has the event logged, [process] swallows the
    exception, and nothing is looked up or sent. *)
Theorem unknown_chat_deletion_is_not_logged (h : OutputHandler) (ev : DeletedEvent)
    (w : World) (s : Store) (t : nat) :
  chat_id ev = None ->
  peer ev = None ->
  spec_should_log_deletion h None = true
  /\ _should_log_deletion h ev = Exn no_peer_error
  /\ _process_deleted_message h ev w s t = (Exn no_peer_error, s, [])
  /\ process h (MessageDeleted ev) w s t = (Ok None, s, []).
Proof.
  intros Hchat Hpeer.
  assert (Hrule : _should_log_deletion h ev = Exn no_peer_error).
  { unfold _should_log_deletion.
    rewrite (resolved_chat_id_unknown ev Hchat Hpeer). reflexivity. }
  assert (Hrun : _process_deleted_message h ev w s t = (Exn no_peer_error, s, [])).
  { unfold _process_deleted_message. unfold_control. rewrite Hrule. reflexivity. }
  split_and!; [reflexivity | exact Hrule | exact Hrun |].
  unfold process. unfold_control.
  destruct (helpers_ready h); cbn; [| reflexivity].
  rewrite Hrun. reflexivity.
Qed.

Lemma unknown_chat_deletion_is_not_logged_witness :
  chat_id chatless_deletion = None
  /\ peer chatless_deletion = None
  /\ spec_should_log_deletion sample_handler None = true
  /\ _should_log_deletion sample_handler chatless_deletion = Exn no_peer_error
  /\ _process_deleted_message sample_handler chatless_deletion calm_world
       initial_store 0%nat = (Exn no_peer_error, initial_store, [])
  /\ process sample_handler (MessageDeleted chatless_deletion) calm_world
       initial_store 0%nat = (Ok None, initial_store, []).
Proof.
  split; [reflexivity |]. split; [reflexivity |].
  exact (unknown_chat_deletion_is_not_logged sample_handler chatless_deletion
           calm_world initial_store 0%nat eq_refl eq_refl).
Defined.

(** C9.  [process] never raises: for every event, every store and every
    behaviour of the collaborators it returns [None] to its caller. *)
Theorem process_never_raises (h : OutputHandler) (event : InboundEvent) (w : World)
    (s : Store) (t : nat) :
  exists s' evs, process h event w s t = (Ok None, s', evs).
Proof.
  unfold process. unfold_control.
  destruct (helpers_ready h); cbn; [| eexists _, _; reflexivity].
  destruct event as [e | e | e | type_name]; cbn.
  - destruct (_process_new_message h e w s t) as [[[[] | ex] s1] e1]; cbn;
      eexists _, _; reflexivity.
  - destruct (_process_new_message h e w s t) as [[[[] | ex] s1] e1]; cbn;
      eexists _, _; reflexivity.
  - destruct (_process_deleted_message h e w s t) as [[[[] | ex] s1] e1]; cbn;
      eexists _, _; reflexivity.
  - eexists _, _. reflexivity.
Qed.

(** The handlers behind [process] do raise: an event without message leaves
    [_process_new_message] with an [AttributeError], a deletion whose entry
    cannot be sent leaves [_process_deleted_message] with the error of the
    log sender; [process] turns both into a plain return. *)
Example process_absorbs_failures :
  let empty := {| message := None |} in
  _process_new_message sample_handler empty calm_world initial_store 0%nat
  = (Exn no_message_error, initial_store, [])
  /\ process sample_handler (NewMessage empty) calm_world initial_store 0%nat
     = (Ok None, initial_store, [])
  /\ (exists s' evs,
        _process_deleted_message sample_handler group_deletion unreachable_world
          initial_store 0%nat
        = (Exn (Exception (lit "ConnectionError") []), s', evs))
  /\ (exists s' evs,
        process sample_handler (MessageDeleted group_deletion) unreachable_world
          initial_store 0%nat = (Ok None, s', evs)).
Proof.
  cbv zeta. split_and!.
  - vm_compute. reflexivity.
  - vm_compute. reflexivity.
  - eexists _, _. vm_compute. reflexivity.
  - eexists _, _. vm_compute. reflexivity.
Qed.

(** An edited message is an instance of the class of new messages: it takes
    the first branch of the dispatch and is delivered as a new message is,
    its media included. *)
Example edited_message_dispatch :
  let edited := {| message := Some photo_message |} in
  process sample_handler (MessageEdited edited) calm_world initial_store 0%nat
  = process sample_handler (NewMessage edited) calm_world initial_store 0%nat
  /\ (exists s' evs,
        process sample_handler (MessageEdited edited) calm_world initial_store 0%nat
        = (Ok None, s', evs)
        /\ existsb is_store_read evs = true).
Proof.
  cbv zeta. split; [reflexivity |].
  eexists _, _. split; vm_compute; reflexivity.
Qed.

(** A message that passes the forwarding rule is sent on: both handlers try
    at least one send, and the one for new messages returns normally. *)
Lemma forwarded_messages_are_sent (h : OutputHandler) (w : World) (ev : MessageEvent)
    (s : Store) (t : nat) :
  helpers_ready h = true ->
  _should_forward h w ev = Ok true ->
  (exists s' evs,
      _process_new_message h ev w s t = (Ok tt, s', evs)
      /\ existsb is_send evs = true)
  /\ (exists r s' evs,
        _process_edited_message h ev w s t = (r, s', evs)
        /\ existsb is_send evs = true).
Proof.
  intros Hready Hrule.
  destruct (should_forward_true_inv h w ev Hrule) as (m & sender_id & Hm & _).
  destruct (helpers_ready_inv h Hready) as (_ & Hl & _ & _).
  unfold _process_new_message, _process_edited_message. unfold_control.
  rewrite Hrule, Hm, Hl. cbn. split.
  - destruct (format_output_message_returns h label_new (Live m) false w s t)
      as (out & evs1 & Hformat & _ & _).
    rewrite Hformat.
    destruct (send_message_with_media_returns h w s (length evs1 + t)%nat out m Hready)
      as (s' & evs2 & Hsend & Hsent).
    rewrite Hsend. eexists _, _. split; [reflexivity |].
    rewrite app_nil_r, existsb_app, Hsent. apply orb_true_r.
  - destruct (format_output_message_returns h label_edited (Live m) false w s t)
      as (out & evs1 & Hformat & _ & _).
    rewrite Hformat.
    destruct (send_message w (length evs1 + t)%nat out None) as [[] | e];
      eexists _, _, _; (split; [reflexivity |]);
      rewrite ?app_nil_r, !existsb_app; cbn; rewrite ?orb_true_r; reflexivity.
Qed.

(** C4 (as amended).  A new or edited message passes [_should_forward]
    exactly when the event carries a message whose sender is known and not
    ignored, whose chat id, when present and non-zero, is not ignored, and
    which is either an incoming private message of a forwarded user or a
    message of a basic group or supergroup ([is_group]) whose chat is among
    the forwarded groups.  A sender that is ignored is never forwarded,
    forwarded user or not.  New and edited messages go through the same
    predicate: unless it holds, neither handler calls any collaborator, and
    when it holds (with the helpers in place) both send the message on. *)
Theorem should_forward_iff (h : OutputHandler) (w : World) (ev : MessageEvent) :
  (_should_forward h w ev = Ok true <->
   (exists m sender_id,
      message ev = Some m /\ get_sender_id w m = Ok sender_id /\
      (sender_id ∉ ignored_ids h) /\
      (forall c, TL.chat_id m = Some c -> c <> 0 -> c ∉ ignored_ids h) /\
      ((TL.is_private m = true /\ TL.out m = false /\ sender_id ∈ forward_user_ids h)
       \/ (TL.is_group m = true /\
           exists c, TL.chat_id m = Some c /\ c ∈ forward_group_ids h))))
  /\ (forall m sender_id,
        message ev = Some m -> get_sender_id w m = Ok sender_id ->
        sender_id ∈ ignored_ids h -> _should_forward h w ev = Ok false)
  /\ (forall s t,
        _should_forward h w ev <> Ok true ->
        (exists r, _process_new_message h ev w s t = (r, s, []))
        /\ (exists r, _process_edited_message h ev w s t = (r, s, [])))
  /\ (forall s t,
        helpers_ready h = true ->
        _should_forward h w ev = Ok true ->
        (exists s' evs,
            _process_new_message h ev w s t = (Ok tt, s', evs)
            /\ existsb is_send evs = true)
        /\ (exists r s' evs,
              _process_edited_message h ev w s t = (r, s', evs)
              /\ existsb is_send evs = true)).
Proof.
  split; [| split; [| split]]; cycle 3.
  { intros s t Hready Hrule. apply forwarded_messages_are_sent; assumption. }
  - split.
    + intros H. destruct (should_forward_true_inv h w ev H) as (m & sender_id & Hm & Hs).
      exists m, sender_id. rewrite (should_forward_eval h w ev m sender_id Hm Hs) in H.
      injection H as H.
      apply andb_true_iff in H as [H Hrule]. apply andb_true_iff in H as [Hi Hc].
      apply negb_true_iff in Hi, Hc. apply mem_false in Hi.
      repeat split; try assumption.
      * intros c Hchat Hnz. rewrite Hchat in Hc. simpl in Hc.
        apply andb_false_iff in Hc as [Hc | Hc].
        -- apply negb_false_iff, Z.eqb_eq in Hc. contradiction.
        -- apply mem_false in Hc. exact Hc.
      * apply orb_true_iff in Hrule as [Hu | Hg].
        -- left. apply andb_true_iff in Hu as [Hu Hin].
           apply andb_true_iff in Hu as [Hp Ho].
           apply negb_true_iff in Ho. apply mem_true in Hin. auto.
        -- right. apply andb_true_iff in Hg as [Hg Hin]. split; [exact Hg |].
           destruct (TL.chat_id m) as [c |]; [| discriminate].
           exists c. split; [reflexivity | apply mem_true; exact Hin].
    + intros (m & sender_id & Hm & Hs & Hi & Hc & Hrule).
      rewrite (should_forward_eval h w ev m sender_id Hm Hs). f_equal.
      apply mem_false in Hi. rewrite Hi. simpl.
      assert (Hc' : truthy_int (TL.chat_id m) && mem_opt (TL.chat_id m) (ignored_ids h)
                    = false).
      { destruct (TL.chat_id m) as [c |]; [| reflexivity]. simpl.
        destruct (Z.eqb_spec c 0) as [-> | Hnz]; [reflexivity |]. simpl.
        apply mem_false. apply Hc; [reflexivity | exact Hnz]. }
      rewrite Hc'. simpl.
      destruct Hrule as [(Hp & Ho & Hin) | (Hg & c & Hchat & Hin)].
      * apply mem_true in Hin. rewrite Hp, Ho, Hin. reflexivity.
      * apply mem_true in Hin. rewrite Hg, Hchat. simpl. rewrite Hin.
        apply orb_true_r.
  - intros m sender_id Hm Hs Hi.
    rewrite (should_forward_eval h w ev m sender_id Hm Hs).
    apply mem_true in Hi. rewrite Hi. reflexivity.
  - intros s t Hno.
    unfold _process_new_message, _process_edited_message, def_, eval, mbind, M_bind,
      bind, raise, return_.
    destruct (_should_forward h w ev) as [[|] | e].
    + contradiction.
    + destruct (message ev); simpl; split; eexists; reflexivity.
    + split; eexists; reflexivity.
Qed.

(** C4, as stated, fails on the code.  The post of a broadcast channel
    whose id is among the forwarded groups is a channel message the stated
    rule forwards, and [_should_forward] refuses it, since it reads
    [is_group], which Telethon sets on basic groups and supergroups only.
    A group message whose chat id 0 is both ignored and forwarded is one the
    stated rule refuses and [_should_forward] forwards, since a chat id of 0
    is falsy and skips the ignore test. *)
Lemma should_forward_differs_from_stated_rule :
  (_should_forward sample_handler calm_world {| message := Some channel_post |} = Ok false
   /\ get_sender_id calm_world channel_post = Ok 7
   /\ spec_should_forward sample_handler 7 channel_post = true)
  /\ (_should_forward zero_handler calm_world {| message := Some zero_chat_message |}
      = Ok true
      /\ get_sender_id calm_world zero_chat_message = Ok 7
      /\ spec_should_forward zero_handler 7 zero_chat_message = false)
  /\ ~ (forall h w ev m sender_id,
          message ev = Some m -> get_sender_id w m = Ok sender_id ->
          _should_forward h w ev = Ok (spec_should_forward h sender_id m)).
Proof.
  split; [| split].
  - vm_compute. auto.
  - vm_compute. auto.
  - intros H.
    specialize (H sample_handler calm_world {| message := Some channel_post |}
                  channel_post 7 eq_refl eq_refl).
    vm_compute in H. discriminate H.
Qed.

(* ================================================================== *)
(** * Further properties of the code *)
(* ================================================================== *)

(** ** The sample worlds *)

Lemma sends_succeed_calm : sends_succeed calm_world.
Proof. intros t text file. reflexivity. Qed.

Lemma sends_fail_unreachable : sends_fail unreachable_world.
Proof. intros t text file. eexists. reflexivity. Qed.

Lemma mentions_succeed_calm : mentions_succeed calm_world.
Proof. intros t entity_id msg_id. eexists. reflexivity. Qed.

Lemma calm_clock_monotone (t1 t2 : nat) :
  (t1 <= t2)%nat -> utcnow calm_world t1 <= utcnow calm_world t2.
Proof. intros Ht. unfold calm_world, timedelta_seconds. simpl. lia. Qed.

(** ** Media delivery *)

Ltac close_leaf :=
  eexists _, _; (split; [reflexivity |]); cbn;
  rewrite ?same_text_refl, ?orb_true_r; split_and!;
  try reflexivity; try lia; try (intros; discriminate); try (intros; reflexivity).

Lemma delivery_discipline (h : OutputHandler) (w : World) (s : Store)
    (t : nat) (text : pystr) (message : TL.Message) :
  helpers_ready h = true ->
  exists s' evs,
    _send_message_with_media h text message w s t = (Ok tt, s', evs)
    /\ media_context s' = None
    /\ _deletion_timestamps s' = _deletion_timestamps s
    /\ _rate_limit_paused_until s' = _rate_limit_paused_until s
    /\ count is_exit evs = count is_retrieved evs
    /\ count is_aexit evs = count is_aentered evs
    /\ (count is_attachment_sent evs <= 1)%nat
    /\ (count is_store_read evs <= 1)%nat
    /\ count is_clock_read evs = 0%nat.
Proof.
  intros Hready.
  destruct (helpers_ready_inv h Hready) as (Hc & Hl & _ & Hr).
  unfold _send_message_with_media, send_saved_sticker, send_fetched_sticker,
    send_restricted_media, send_stored_media,
    release_media_context, release_media_context_at_end.
  rewrite Hc, Hl, Hr. unfold_control. cbn.
  run_cases.
  all: close_leaf.
Qed.

(** X1.  A message without media is logged by exactly one text-only send
    of the formatted entry.  If that send fails, the failure is reported by
    one further send and is not passed on: the delivery returns normally
    either way, with no media context left. *)
Theorem text_message_sent_once (h : OutputHandler) (w : World) (s : Store)
    (t : nat) (text : pystr) (message : TL.Message) :
  helpers_ready h = true ->
  TL.media message = None ->
  let sent := send_message w t text None in
  _send_message_with_media h text message w s t =
    (Ok tt, set_media_context None s,
     EvSendMessage text None sent
     :: match sent with
        | Ok _ => []
        | Exn e =>
            let report := critical_error_text (TL.id message) e text in
            [EvSendMessage report None (send_message w (S t) report None)]
        end).
Proof.
  intros Hready Hmedia.
  destruct (helpers_ready_inv h Hready) as (Hc & Hl & _ & Hr).
  unfold _send_message_with_media, release_media_context_at_end.
  rewrite Hc, Hl, Hr, Hmedia. unfold_control. cbn.
  destruct (send_message w t text None) as [[] | e]; cbn; [reflexivity |].
  destruct (send_message w (S t) _ None) as [[] | e']; reflexivity.
Qed.

Lemma text_message_sent_once_witness :
  helpers_ready sample_handler = true
  /\ TL.media (plain_message 7 (lit "hi")) = None
  /\ _send_message_with_media sample_handler (lit "entry") (plain_message 7 (lit "hi"))
       calm_world initial_store 0%nat
     = (Ok tt, initial_store, [EvSendMessage (lit "entry") None (Ok tt)]).
Proof.
  split; [reflexivity |]. split; [reflexivity |].
  exact (text_message_sent_once sample_handler calm_world initial_store 0%nat
           (lit "entry") (plain_message 7 (lit "hi")) eq_refl eq_refl).
Defined.

(** X2.  For media in a chat that forbids forwarding which line 521 does
    not take for a sticker, the delivery starts with the fresh fetch of the
    media.  The store is not read, no stored file is opened,
    [client.send_file] is not used, and unless a send with the file attached
    went through, the text-only entry is sent between the warning that the
    media may not have been sent and the note that the original media could
    not be handled. *)
Theorem restricted_media_is_fetched_afresh (h : OutputHandler) (w : World)
    (s : Store) (t : nat) (text : pystr) (message : TL.Message)
    (media : TL.MessageMedia) :
  helpers_ready h = true ->
  TL.media message = Some media ->
  is_sticker media = false ->
  TL.noforwards message = true ->
  exists s' tail,
    _send_message_with_media h text message w s t
    = (Ok tt, s',
       EvPrepare (TL.id message) (prepare_media w t message) :: tail)
    /\ existsb is_store_read tail = false
    /\ existsb is_stored_media_call tail = false
    /\ existsb (fun e => match e with EvSendFile _ _ _ _ => true | _ => false end)
         tail = false
    /\ (existsb is_attachment_sent tail = false ->
        existsb
          (is_text_send
             ([9888; 65039; 32; 42; 42; 23186; 20307; 21487; 33021; 26410; 21457; 36865;
            42; 42; 32; 9888; 65039; 10; 10]
                ++ text
                ++ [10; 10; 40; 21407; 22987; 23186; 20307; 26410; 33021; 25104; 21151;
               22788; 29702; 25110; 21457; 36865; 41]))
          tail = true).
Proof.
  intros Hready Hmedia Hsticker Hrestricted.
  change ([9888; 65039; 32; 42; 42; 23186; 20307; 21487; 33021; 26410; 21457; 36865;
            42; 42; 32; 9888; 65039; 10; 10]
          ++ text
          ++ [10; 10; 40; 21407; 22987; 23186; 20307; 26410; 33021; 25104; 21151;
               22788; 29702; 25110; 21457; 36865; 41])
    with (media_not_sent_text text).
  destruct (helpers_ready_inv h Hready) as (Hc & Hl & _ & Hr).
  unfold _send_message_with_media, send_restricted_media,
    release_media_context_at_end.
  rewrite Hc, Hl, Hr, Hmedia, Hsticker, Hrestricted. unfold_control. cbn.
  run_cases.
  all: close_leaf.
Qed.

Lemma restricted_media_is_fetched_afresh_witness :
  helpers_ready sample_handler = true
  /\ TL.media protected_photo_message = Some photo
  /\ is_sticker photo = false
  /\ TL.noforwards protected_photo_message = true
  /\ exists s' tail,
       _send_message_with_media sample_handler (lit "entry") protected_photo_message
         calm_world initial_store 0%nat
       = (Ok tt, s', EvPrepare 8 (Ok tt) :: tail)
       /\ existsb is_store_read tail = false
       /\ existsb is_stored_media_call tail = false
       /\ existsb (fun e => match e with EvSendFile _ _ _ _ => true | _ => false end)
            tail = false
       /\ (existsb is_attachment_sent tail = false ->
           existsb
             (is_text_send
                ([9888; 65039; 32; 42; 42; 23186; 20307; 21487; 33021; 26410; 21457; 36865;
            42; 42; 32; 9888; 65039; 10; 10]
                   ++ lit "entry"
                   ++ [10; 10; 40; 21407; 22987; 23186; 20307; 26410; 33021; 25104; 21151;
               22788; 29702; 25110; 21457; 36865; 41]))
             tail = true).
Proof.
  split; [reflexivity |]. split; [reflexivity |]. split; [reflexivity |].
  split; [reflexivity |].
  exact (restricted_media_is_fetched_afresh sample_handler calm_world initial_store
           0%nat (lit "entry") protected_photo_message photo
           eq_refl eq_refl eq_refl eq_refl).
Defined.

(** X3.  For media in a chat that allows forwarding which line 521 does
    not take for a sticker, with a store that answers, the delivery starts
    with the store read.  It never fetches the media afresh and never uses
    [client.send_file], and unless a send with the file attached went
    through, the text-only entry is sent between the warning that the media
    may not have been sent and the note that the original media could not be
    handled. *)
Theorem ordinary_media_comes_from_the_store (h : OutputHandler) (w : World)
    (s : Store) (t : nat) (text : pystr) (message : TL.Message)
    (media : TL.MessageMedia) (stored : option Models.Message) :
  helpers_ready h = true ->
  TL.media message = Some media ->
  is_sticker media = false ->
  TL.noforwards message = false ->
  get_message_by_id w t (TL.id message) = Ok stored ->
  exists s' tail,
    _send_message_with_media h text message w s t
    = (Ok tt, s', EvGetMessage (TL.id message) (Ok stored) :: tail)
    /\ existsb is_store_read tail = false
    /\ existsb is_media_fetch tail = false
    /\ existsb (fun e => match e with EvSendFile _ _ _ _ => true | _ => false end)
         tail = false
    /\ (existsb is_attachment_sent tail = false ->
        existsb
          (is_text_send
             ([9888; 65039; 32; 42; 42; 23186; 20307; 21487; 33021; 26410; 21457; 36865;
            42; 42; 32; 9888; 65039; 10; 10]
                ++ text
                ++ [10; 10; 40; 21407; 22987; 23186; 20307; 26410; 33021; 25104; 21151;
               22788; 29702; 25110; 21457; 36865; 41]))
          tail = true).
Proof.
  intros Hready Hmedia Hsticker Hrestricted Hstored.
  change ([9888; 65039; 32; 42; 42; 23186; 20307; 21487; 33021; 26410; 21457; 36865;
            42; 42; 32; 9888; 65039; 10; 10]
          ++ text
          ++ [10; 10; 40; 21407; 22987; 23186; 20307; 26410; 33021; 25104; 21151;
               22788; 29702; 25110; 21457; 36865; 41])
    with (media_not_sent_text text).
  destruct (helpers_ready_inv h Hready) as (Hc & Hl & _ & Hr).
  unfold _send_message_with_media, send_stored_media, release_media_context,
    release_media_context_at_end.
  rewrite Hc, Hl, Hr, Hmedia, Hsticker, Hrestricted. unfold_control. cbn.
  rewrite Hstored. cbn.
  run_cases.
  all: close_leaf.
Qed.

Lemma ordinary_media_comes_from_the_store_witness :
  helpers_ready sample_handler = true
  /\ TL.media photo_message = Some photo
  /\ is_sticker photo = false
  /\ TL.noforwards photo_message = false
  /\ get_message_by_id calm_world 0 (TL.id photo_message) = Ok None
  /\ exists s' tail,
       _send_message_with_media sample_handler (lit "entry") photo_message
         calm_world initial_store 0%nat
       = (Ok tt, s', EvGetMessage 6 (Ok None) :: tail)
       /\ existsb is_store_read tail = false
       /\ existsb is_media_fetch tail = false
       /\ existsb (fun e => match e with EvSendFile _ _ _ _ => true | _ => false end)
            tail = false
       /\ (existsb is_attachment_sent tail = false ->
           existsb
             (is_text_send
                ([9888; 65039; 32; 42; 42; 23186; 20307; 21487; 33021; 26410; 21457; 36865;
            42; 42; 32; 9888; 65039; 10; 10]
                   ++ lit "entry"
                   ++ [10; 10; 40; 21407; 22987; 23186; 20307; 26410; 33021; 25104; 21151;
               22788; 29702; 25110; 21457; 36865; 41]))
             tail = true).
Proof.
  split; [reflexivity |]. split; [reflexivity |]. split; [reflexivity |].
  split; [reflexivity |]. split; [reflexivity |].
  exact (ordinary_media_comes_from_the_store sample_handler calm_world initial_store
           0%nat (lit "entry") photo_message photo None
           eq_refl eq_refl eq_refl eq_refl eq_refl).
Defined.

(** X4.  Every media context handed out by [retrieve_media_as_file] is
    exited exactly once, every prepared media that was entered is left
    exactly once, and no media context is left over when the delivery
    returns. *)
Theorem media_contexts_are_released (h : OutputHandler) (w : World) (s : Store)
    (t : nat) (text : pystr) (message : TL.Message) :
  helpers_ready h = true ->
  let '(_, s', evs) := _send_message_with_media h text message w s t in
  count is_exit evs = count is_retrieved evs
  /\ count is_aexit evs = count is_aentered evs
  /\ media_context s' = None.
Proof.
  intros Hready.
  destruct (delivery_discipline h w s t text message Hready)
    as (s' & evs & Hrun & Hctx & _ & _ & Hexit & Haexit & _).
  rewrite Hrun. auto.
Qed.

Lemma media_contexts_are_released_witness :
  helpers_ready sample_handler = true
  /\ let '(_, s', evs) :=
       _send_message_with_media sample_handler (lit "entry") sticker_message
         lost_file_world initial_store 0%nat in
     count is_exit evs = count is_retrieved evs
     /\ count is_aexit evs = count is_aentered evs
     /\ media_context s' = None.
Proof.
  split; [reflexivity |].
  exact (media_contexts_are_released sample_handler lost_file_world initial_store
           0%nat (lit "entry") sticker_message eq_refl).
Defined.

(** X5.  One delivery sends at most one attachment successfully, reads the
    store at most once, and leaves the two fields of the rate limiter as they
    were. *)
Theorem at_most_one_attachment (h : OutputHandler) (w : World) (s : Store)
    (t : nat) (text : pystr) (message : TL.Message) :
  helpers_ready h = true ->
  let '(_, s', evs) := _send_message_with_media h text message w s t in
  (count is_attachment_sent evs <= 1)%nat
  /\ (count is_store_read evs <= 1)%nat
  /\ _deletion_timestamps s' = _deletion_timestamps s
  /\ _rate_limit_paused_until s' = _rate_limit_paused_until s.
Proof.
  intros Hready.
  destruct (delivery_discipline h w s t text message Hready)
    as (s' & evs & Hrun & _ & Hq & Hp & _ & _ & Hsent & Hread & _).
  rewrite Hrun. auto.
Qed.

Lemma at_most_one_attachment_witness :
  helpers_ready sample_handler = true
  /\ let '(_, s', evs) :=
       _send_message_with_media sample_handler (lit "entry") photo_message
         lost_file_world initial_store 0%nat in
     (count is_attachment_sent evs <= 1)%nat
     /\ (count is_store_read evs <= 1)%nat
     /\ _deletion_timestamps s' = _deletion_timestamps initial_store
     /\ _rate_limit_paused_until s' = _rate_limit_paused_until initial_store.
Proof.
  split; [reflexivity |].
  exact (at_most_one_attachment sample_handler lost_file_world initial_store
           0%nat (lit "entry") photo_message eq_refl).
Defined.

(** X6.  Without log sender, media helper or client (lines 499-507) the
    delivery does nothing but send the initialisation error text through the
    log sender, if there is one.  This send is not protected: its failure is
    the failure of the delivery. *)
Theorem delivery_without_helpers (h : OutputHandler) (w : World) (s : Store)
    (t : nat) (text : pystr) (message : TL.Message) :
  log_sender h && restricted_media_handler h && client h = false ->
  _send_message_with_media h text message w s t =
    if log_sender h then
      let sent := send_message w t (init_error_text text) None in
      (match sent with Ok _ => Ok tt | Exn e => Exn e end, s,
       [EvSendMessage (init_error_text text) None sent])
    else (Ok tt, s, []).
Proof.
  intros Hguard. unfold _send_message_with_media. unfold_control.
  destruct (log_sender h); cbn in *.
  - assert (Hg : negb (restricted_media_handler h) || negb (client h) = true).
    { destruct (restricted_media_handler h), (client h); try discriminate; reflexivity. }
    rewrite Hg.
    destruct (send_message w t (init_error_text text) None) as [[] | e]; reflexivity.
  - reflexivity.
Qed.

Lemma delivery_without_helpers_witness :
  log_sender unset_handler && restricted_media_handler unset_handler
  && client unset_handler = false
  /\ _send_message_with_media unset_handler (lit "entry") photo_message
       calm_world initial_store 0%nat
     = (Ok tt, initial_store, []).
Proof.
  split; [reflexivity |].
  exact (delivery_without_helpers unset_handler calm_world initial_store 0%nat
           (lit "entry") photo_message eq_refl).
Defined.

(** ** Edited and deleted messages *)



Lemma count_zero_of_forallb (p q : Event -> bool) (evs : list Event) :
  (forall e, p e = true -> q e = false) ->
  forallb p evs = true -> count q evs = 0%nat.
Proof.
  intros Hpq. induction evs as [| e evs IH]; simpl; [reflexivity |].
  intros H. apply andb_true_iff in H as [He Hevs].
  rewrite count_cons, (Hpq e He), (IH Hevs). reflexivity.
Qed.

(** What one lookup calls. *)
Lemma lookup_events (w : World) (s : Store) (t : nat) (message_id : Z)
    (expected_chat_id : option Z) :
  exists found evs,
    _get_message_from_db_with_retry message_id expected_chat_id w s t
    = (Ok found, s, evs)
    /\ count is_send evs = 0%nat
    /\ (1 <= count is_store_read evs <= 2)%nat
    /\ count is_attachment_send evs = 0%nat.
Proof.
  unfold _get_message_from_db_with_retry. unfold_control. cbn.
  destruct (get_message_by_id w t message_id) as [[m |] | e]; cbn.
  - destruct (chat_matches expected_chat_id m); cbn; eexists _, _;
      split_and!; try reflexivity; cbn; lia.
  - destruct (get_message_by_id w (S (S t)) message_id) as [[m |] | e]; cbn.
    + destruct (chat_matches expected_chat_id m); cbn; eexists _, _;
        split_and!; try reflexivity; cbn; lia.
    + eexists _, _; split_and!; try reflexivity; cbn; lia.
    + eexists _, _; split_and!; try reflexivity; cbn; lia.
  - eexists _, _; split_and!; try reflexivity; cbn; lia.
Qed.

(** The last step of logging a deleted id: the entry is sent, and a failure
    of the send is not caught. *)
Ltac send_entry before :=
  match goal with
  | |- context [send_message ?w ?tk ?txt None] =>
      exists before, txt, (send_message w tk txt None);
      split_and!;
      [ destruct (send_message w tk txt None) as [[] | ?]; cbn;
        rewrite <- ?app_assoc, ?app_nil_r; reflexivity
      | f_equal; rewrite ?length_app; cbn; lia
      | rewrite ?count_app; cbn; lia
      | rewrite ?count_app; cbn; lia
      | rewrite ?count_app; cbn; lia
      | rewrite ?count_app; cbn; lia ]
  end.

(** What logging one deleted id calls: the lookup, mentions, and one send
    whose failure is not caught. *)
Lemma log_deleted_id_shape (h : OutputHandler) (chat : option Z) (msg_id : Z)
    (w : World) (s : Store) (t : nat) :
  log_sender h = true ->
  exists before text sent,
    log_deleted_id h chat msg_id w s t
    = (match sent with Ok _ => Normal tt | Exn e => Raised e end, s,
       before ++ [EvSendMessage text None sent])
    /\ sent = send_message w (length before + t)%nat text None
    /\ count is_send before = 0%nat
    /\ (1 <= count is_store_read before)%nat
    /\ (count is_store_read before <= 2)%nat
    /\ count is_attachment_send before = 0%nat.
Proof.
  intros Hl. unfold log_deleted_id. unfold_control.
  destruct (lookup_events w s t msg_id chat)
    as (found & evs1 & Hrun & Hsend1 & Hread1 & Hatt1).
  rewrite Hrun, Hl. destruct found as [original |].
  - destruct (format_output_message_returns h label_deleted (Archived original) true
                w s (length evs1 + t)%nat) as (out & evs2 & Hformat & Hevs2 & _).
    rewrite Hformat.
    assert (Hsend2 : count is_send evs2 = 0%nat).
    { apply (count_zero_of_forallb is_mention); [| exact Hevs2].
      intros [] He; try discriminate He; reflexivity. }
    assert (Hread2 : count is_store_read evs2 = 0%nat).
    { apply (count_zero_of_forallb is_mention); [| exact Hevs2].
      intros [] He; try discriminate He; reflexivity. }
    assert (Hatt2 : count is_attachment_send evs2 = 0%nat).
    { apply (count_zero_of_forallb is_mention); [| exact Hevs2].
      intros [] He; try discriminate He; reflexivity. }
    send_entry (evs1 ++ evs2).
  - destruct chat as [c |]; cbn.
    + destruct (negb (c =? 0) && client h); cbn.
      * destruct (create_mention w (length evs1 + t)%nat c msg_id) as [cm | e];
          cbn.
        -- send_entry (evs1 ++ [EvMention c msg_id (Ok cm)]).
        -- send_entry (evs1 ++ [EvMention c msg_id (Exn e)]).
      * send_entry evs1.
    + send_entry evs1.
Qed.

(** Mentions read no record. *)
Lemma mentions_read_nothing (msg_id : Z) (evs : list Event) :
  forallb is_mention evs = true -> forallb (reads_only msg_id) evs = true.
Proof.
  induction evs as [| e evs IH]; simpl; [reflexivity |].
  intros H. apply andb_true_iff in H as [He H]. rewrite (IH H).
  destruct e; try discriminate He; reflexivity.
Qed.

(** The lookup of an id reads the record of that id only. *)
Lemma lookup_reads_one_id (w : World) (s : Store) (t : nat) (message_id : Z)
    (expected_chat_id : option Z) :
  exists found evs,
    _get_message_from_db_with_retry message_id expected_chat_id w s t
    = (Ok found, s, evs)
    /\ forallb (reads_only message_id) evs = true.
Proof.
  unfold _get_message_from_db_with_retry. unfold_control. cbn.
  destruct (get_message_by_id w t message_id) as [[m |] | e]; cbn.
  - destruct (chat_matches expected_chat_id m); cbn; eexists _, _;
      (split; [reflexivity |]); cbn; rewrite Z.eqb_refl; reflexivity.
  - destruct (get_message_by_id w (S (S t)) message_id) as [[m |] | e]; cbn.
    + destruct (chat_matches expected_chat_id m); cbn; eexists _, _;
        (split; [reflexivity |]); cbn; rewrite Z.eqb_refl; reflexivity.
    + eexists _, _; (split; [reflexivity |]); cbn; rewrite Z.eqb_refl; reflexivity.
    + eexists _, _; (split; [reflexivity |]); cbn; rewrite Z.eqb_refl; reflexivity.
  - eexists _, _; (split; [reflexivity |]); cbn; rewrite Z.eqb_refl; reflexivity.
Qed.

(** Logging one deleted id reads the record of that id only. *)
Lemma log_deleted_id_reads (h : OutputHandler) (chat : option Z) (msg_id : Z)
    (w : World) (s : Store) (t : nat) :
  let '(_, _, calls) := log_deleted_id h chat msg_id w s t in
  forallb (reads_only msg_id) calls = true.
Proof.
  unfold log_deleted_id. unfold_control.
  destruct (lookup_reads_one_id w s t msg_id chat) as (found & evs1 & Hrun & Hreads).
  rewrite Hrun. destruct found as [original |].
  - destruct (format_output_message_returns h label_deleted (Archived original) true
                w s (length evs1 + t)%nat) as (out & evs2 & Hformat & Hevs2 & _).
    rewrite Hformat.
    pose proof (mentions_read_nothing msg_id evs2 Hevs2) as Hreads2.
    destruct (log_sender h); cbn;
      [destruct (send_message w (length evs2 + (length evs1 + t))%nat out None)
         as [[] | e]; cbn |];
      rewrite ?forallb_app, Hreads, Hreads2; reflexivity.
  - destruct chat as [c |]; cbn;
      [destruct (negb (c =? 0) && client h); cbn;
       [destruct (create_mention w (length evs1 + t)%nat c msg_id) as [cm | e];
        cbn |] |].
    all: destruct (log_sender h); cbn.
    all: try match goal with
             | |- context [send_message ?w ?tk ?txt None] =>
                 destruct (send_message w tk txt None) as [[] | ?]; cbn
             end.
    all: rewrite ?forallb_app, ?Hreads; reflexivity.
Qed.

(** With a log chat that accepts everything, the loop over the ids makes
    one run of calls per id, in the order of the ids. *)
Lemma log_deleted_ids_entries (h : OutputHandler) (chat : option Z) (ids : list Z)
    (w : World) (s : Store) (t : nat) :
  log_sender h = true ->
  sends_succeed w ->
  exists entries,
    for_each ids (log_deleted_id h chat) w s t = (Normal tt, s, concat entries)
    /\ Forall2 logs_one_id ids entries.
Proof.
  intros Hl Hsends. revert t. induction ids as [| msg_id ids IH]; intros t.
  - exists []. split; [reflexivity | constructor].
  - cbn [for_each]. unfold_control.
    destruct (log_deleted_id_shape h chat msg_id w s t Hl)
      as (before & text & sent & Hone & Hsent & Hsend & Hlo & Hhi & Hatt).
    pose proof (log_deleted_id_reads h chat msg_id w s t) as Hreads.
    rewrite Hsends in Hsent. subst sent. rewrite Hone in Hreads |- *.
    rewrite forallb_app in Hreads. apply andb_true_iff in Hreads as [Hreads _].
    destruct (IH (length (before ++ [EvSendMessage text None (Ok tt)]) + t)%nat)
      as (entries & Hrest & Hentries).
    rewrite Hrest.
    exists ((before ++ [EvSendMessage text None (Ok tt)]) :: entries).
    split; [reflexivity |].
    constructor; [| exact Hentries].
    exists before, text.
    split_and!; [reflexivity | exact Hsend | exact Hlo | exact Hhi | exact Hreads].
Qed.

(** X8.  When the log chat accepts every message, the calls that an
    admitted deletion event makes after those of the rate limiter fall into
    one run per deleted id, in the order of the ids.  The run of an id reads
    the record of that id, once or twice, and of no other id, and ends with
    the one send of its entry, text only. *)
Theorem one_entry_per_deleted_id (h : OutputHandler) (w : World) (s : Store)
    (t : nat) (ev : DeletedEvent) (s1 : Store) (limiter_calls : list Event) :
  log_sender h = true ->
  sends_succeed w ->
  _should_log_deletion h ev = Ok true ->
  _apply_deletion_rate_limit h w s t = (Ok true, s1, limiter_calls) ->
  exists entries,
    _process_deleted_message h ev w s t
    = (Ok tt, s1, limiter_calls ++ concat entries)
    /\ Forall2 logs_one_id (deleted_ids ev) entries.
Proof.
  intros Hl Hsends Hrule Hadmit.
  unfold _process_deleted_message. unfold_control. rewrite Hrule. cbn.
  rewrite Hadmit. cbn.
  destruct (log_deleted_ids_entries h (chat_id ev) (deleted_ids ev) w s1
              (length limiter_calls + t)%nat Hl Hsends)
    as (entries & Hloop & Hentries).
  rewrite Hloop. exists entries. rewrite app_nil_r.
  split; [reflexivity | exact Hentries].
Qed.

Lemma one_entry_per_deleted_id_witness :
  log_sender sample_handler = true
  /\ sends_succeed calm_world
  /\ _should_log_deletion sample_handler group_deletion = Ok true
  /\ _apply_deletion_rate_limit sample_handler calm_world initial_store 0%nat
     = (Ok true,
        {| _deletion_timestamps := [0]; _rate_limit_paused_until := None;
           media_context := None |},
        [EvNow 0])
  /\ exists entries,
       _process_deleted_message sample_handler group_deletion calm_world
         initial_store 0%nat
       = (Ok tt,
          {| _deletion_timestamps := [0]; _rate_limit_paused_until := None;
             media_context := None |},
          [EvNow 0] ++ concat entries)
       /\ Forall2 logs_one_id (deleted_ids group_deletion) entries.
Proof.
  split; [reflexivity |]. split; [exact sends_succeed_calm |].
  split; [reflexivity |]. split; [reflexivity |].
  exact (one_entry_per_deleted_id sample_handler calm_world initial_store 0%nat
           group_deletion _ _ eq_refl sends_succeed_calm eq_refl eq_refl).
Defined.

(** X9.  When the log chat refuses every message, an admitted deletion
    event with at least one id stops at its first entry: one send is tried,
    its failure is passed on, and the remaining ids are neither looked up nor
    logged. *)
Theorem outage_stops_deletion_log (h : OutputHandler) (w : World) (s : Store)
    (t : nat) (ev : DeletedEvent) (s1 : Store) (limiter_calls : list Event)
    (msg_id : Z) (others : list Z) :
  log_sender h = true ->
  sends_fail w ->
  _should_log_deletion h ev = Ok true ->
  _apply_deletion_rate_limit h w s t = (Ok true, s1, limiter_calls) ->
  deleted_ids ev = msg_id :: others ->
  exists e evs,
    _process_deleted_message h ev w s t = (Exn e, s1, limiter_calls ++ evs)
    /\ count is_send evs = 1%nat
    /\ (count is_store_read evs <= 2)%nat.
Proof.
  intros Hl Hsends Hrule Hadmit Hids.
  unfold _process_deleted_message. unfold_control. rewrite Hrule. cbn.
  rewrite Hadmit, Hids. cbn. unfold_control.
  destruct (log_deleted_id_shape h (chat_id ev) msg_id w s1
              (length limiter_calls + t)%nat Hl)
    as (before & text & sent & Hone & Hsent & Hsend & Hlo & Hhi & Hatt).
  destruct (Hsends (length before + (length limiter_calls + t))%nat text None)
    as [e He].
  rewrite He in Hsent. subst sent. rewrite Hone.
  exists e, (before ++ [EvSendMessage text None (Exn e)]).
  split; [reflexivity |].
  rewrite !count_app, Hsend. cbn. split; lia.
Qed.

Lemma outage_stops_deletion_log_witness :
  log_sender sample_handler = true
  /\ sends_fail unreachable_world
  /\ _should_log_deletion sample_handler group_deletion = Ok true
  /\ _apply_deletion_rate_limit sample_handler unreachable_world initial_store 0%nat
     = (Ok true,
        {| _deletion_timestamps := [0]; _rate_limit_paused_until := None;
           media_context := None |},
        [EvNow 0])
  /\ deleted_ids group_deletion = 1 :: [2]
  /\ exists e evs,
       _process_deleted_message sample_handler group_deletion unreachable_world
         initial_store 0%nat
       = (Exn e,
          {| _deletion_timestamps := [0]; _rate_limit_paused_until := None;
             media_context := None |},
          [EvNow 0] ++ evs)
       /\ count is_send evs = 1%nat
       /\ (count is_store_read evs <= 2)%nat.
Proof.
  split; [reflexivity |]. split; [exact sends_fail_unreachable |].
  split; [reflexivity |]. split; [reflexivity |]. split; [reflexivity |].
  exact (outage_stops_deletion_log sample_handler unreachable_world initial_store
           0%nat group_deletion _ _ 1 [2] eq_refl sends_fail_unreachable eq_refl
           eq_refl eq_refl).
Defined.

(** X10.  A deleted message that the store does not know at either read
    gets the entry for unknown content.  The entry names the message id; with
    a non-zero chat id and a client it names the chat first, by its mention,
    or by its raw id when the mention lookup fails. *)
Theorem unknown_deleted_message_entry (h : OutputHandler) (chat : option Z)
    (msg_id : Z) (w : World) (s : Store) (t : nat) :
  log_sender h = true ->
  get_message_by_id w t msg_id = Ok None ->
  get_message_by_id w (2 + t) msg_id = Ok None ->
  exists looked prefix sent,
    log_deleted_id h chat msg_id w s t
    = (match sent with Ok _ => Normal tt | Exn e => Raised e end, s,
       [EvGetMessage msg_id (Ok None); EvSleep retry_delay_ms;
        EvGetMessage msg_id (Ok None)]
       ++ looked
       ++ [EvSendMessage
             (unknown_content_text (prefix ++ message_id_text msg_id)) None sent])
    /\ match chat with
       | Some c =>
           if negb (c =? 0) && client h then
             looked = [EvMention c msg_id (create_mention w (3 + t) c msg_id)]
             /\ prefix = match create_mention w (3 + t) c msg_id with
                         | Ok chat_mention => chat_mention ++ [32; 20013; 30340]
                         | Exn _ =>
                             [32842; 22825; 32; 96] ++ str_int c
                             ++ [96; 32; 20013; 30340]
                         end
           else looked = [] /\ prefix = []
       | None => looked = [] /\ prefix = []
       end.
Proof.
  intros Hl Hfirst Hsecond. simpl Nat.add in *.
  unfold log_deleted_id, _get_message_from_db_with_retry.
  unfold_control. cbn. rewrite Hfirst. cbn. rewrite Hsecond. cbn. rewrite Hl.
  destruct chat as [c |]; cbn; [destruct (negb (c =? 0) && client h); cbn;
    [destruct (create_mention w (S (S (S t))) c msg_id) as [cm | e]; cbn |] |].
  all: match goal with
       | |- context [send_message ?w ?tk ?txt None] =>
           eexists _, _, (send_message w tk txt None);
           (split; [| split; reflexivity]);
           destruct (send_message w tk txt None) as [[] | ?]; cbn;
           rewrite <- ?app_assoc; reflexivity
       end.
Qed.

Lemma unknown_deleted_message_entry_witness :
  log_sender sample_handler = true
  /\ get_message_by_id calm_world 0 1 = Ok None
  /\ get_message_by_id calm_world (2 + 0) 1 = Ok None
  /\ exists looked prefix sent,
       log_deleted_id sample_handler (Some (-1002)) 1 calm_world
         initial_store 0%nat
       = (match sent with Ok _ => Normal tt | Exn e => Raised e end, initial_store,
          [EvGetMessage 1 (Ok None); EvSleep retry_delay_ms; EvGetMessage 1 (Ok None)]
          ++ looked
          ++ [EvSendMessage
                (unknown_content_text (prefix ++ message_id_text 1)) None sent])
       /\ looked = [EvMention (-1002) 1 (Ok (lit "user"))]
       /\ prefix = lit "user" ++ [32; 20013; 30340].
Proof.
  split; [reflexivity |]. split; [reflexivity |]. split; [reflexivity |].
  exact (unknown_deleted_message_entry sample_handler (Some (-1002)) 1 calm_world
           initial_store 0%nat eq_refl eq_refl eq_refl).
Defined.

(** ** Escaping *)

(** X12.  The body segment is at most twice as long as the body plus the
    12 units of the truncation marker, and never longer than 7012 units.  A
    body whose capped form holds none of the three escaped characters is
    passed on as capped. *)
Theorem body_segment_bound (text_content : pystr) :
  (length (body_segment text_content) <= 2 * length text_content + 12)%nat
  /\ Z.of_nat (length (body_segment text_content)) <= 7012
  /\ ((forall c, In c (truncate_text text_content) -> is_markdown_special c = false) ->
      body_segment text_content = truncate_text text_content).
Proof.
  unfold body_segment. split_and!; cycle 2.
  - generalize (truncate_text text_content). intros s.
    induction s as [| c s IH]; intros Hs; [reflexivity |].
    rewrite escape_markdown_cons, (Hs c (or_introl eq_refl)). cbn.
    f_equal. apply IH. intros d Hd. apply Hs. right. exact Hd.
  - destruct (le_lt_dec (length text_content) body_cap) as [Hshort | Hlong].
    + rewrite (truncate_text_short text_content Hshort), escape_markdown_length.
      pose proof (filter_length_le is_markdown_special text_content). lia.
    + destruct (truncate_text_long text_content Hlong) as [-> Hlen].
      rewrite escape_markdown_app, length_app, escape_markdown_length, Hlen.
      pose proof (filter_length_le is_markdown_special (take body_cap text_content))
        as Hle.
      rewrite Hlen in Hle.
      change (length (escape_markdown truncation_marker)) with 12%nat.
      unfold body_cap in *. lia.
  - destruct (le_lt_dec (length text_content) body_cap) as [Hshort | Hlong].
    + rewrite (truncate_text_short text_content Hshort), escape_markdown_length.
      pose proof (filter_length_le is_markdown_special text_content).
      unfold body_cap in *. lia.
    + destruct (truncate_text_long text_content Hlong) as [-> Hlen].
      rewrite escape_markdown_app, length_app, escape_markdown_length, Hlen.
      pose proof (filter_length_le is_markdown_special (take body_cap text_content))
        as Hle.
      rewrite Hlen in Hle.
      change (length (escape_markdown truncation_marker)) with 12%nat.
      unfold body_cap in *. lia.
Qed.

Lemma escape_markdown_head (s : pystr) :
  match escape_markdown s with
  | d :: _ => is_markdown_special d = false
  | [] => True
  end.
Proof.
  destruct s as [| c s]; [exact I |].
  rewrite escape_markdown_cons.
  destruct (is_markdown_special c) eqn:Hc; cbn; [reflexivity | exact Hc].
Qed.

Lemma unescape_escape (s : pystr) : unescape_markdown (escape_markdown s) = s.
Proof.
  induction s as [| c s IH]; [reflexivity |].
  rewrite escape_markdown_cons.
  destruct (is_markdown_special c) eqn:Hc.
  - cbn. rewrite Hc. cbn. rewrite IH. reflexivity.
  - cbn. pose proof (escape_markdown_head s) as Hhead.
    destruct (escape_markdown s) as [| d r] eqn:Hesc.
    + cbn in IH. rewrite <- IH. reflexivity.
    + rewrite Hhead, andb_false_r. rewrite IH. reflexivity.
Qed.

(** X13.  Escaping loses nothing: bodies with the same escaped form are
    the same. *)
Theorem escape_markdown_injective (a b : pystr) :
  escape_markdown a = escape_markdown b -> a = b.
Proof.
  intros H. rewrite <- (unescape_escape a), <- (unescape_escape b), H. reflexivity.
Qed.

Lemma escape_markdown_injective_witness :
  escape_markdown (lit "a_b*c") = escape_markdown ([97; 95] ++ lit "b*c")
  /\ lit "a_b*c" = [97; 95] ++ lit "b*c".
Proof.
  assert (H : escape_markdown (lit "a_b*c") = escape_markdown ([97; 95] ++ lit "b*c"))
    by reflexivity.
  split; [exact H |].
  exact (escape_markdown_injective (lit "a_b*c") ([97; 95] ++ lit "b*c") H).
Defined.

(** ** Formatter failures *)

Ltac format_leaf :=
  eexists _, _; split_and!;
  [ reflexivity
  | cbn; lia
  | cbn; intros; first [discriminate | reflexivity]
  | intros m' e' Hc Hdata He';
    first [ discriminate Hc | discriminate Hdata
          | injection Hdata as <-; first [congruence | split; reflexivity] ]
  | intros m' Hc Hdata Hnone;
    first [ discriminate Hc | discriminate Hdata
          | injection Hdata as <-; first [congruence | reflexivity] ] ].

(** X11.  The formatter always returns a text, leaves the store alone and
    looks up at most two mentions.  A failed mention lookup, a sender id that
    cannot be determined, and an archived record without text each yield the
    error text that names the message id. *)
Theorem formatter_degrades_to_error_text (h : OutputHandler) (event_type : pystr)
    (message_data : MessageData) (is_deleted : bool) (w : World) (s : Store)
    (t : nat) :
  exists out evs,
    _format_output_message h event_type message_data is_deleted w s t
    = (Ok out, s, evs)
    /\ (count is_mention evs <= 2)%nat
    /\ (existsb is_failed_mention evs = true ->
        out = format_error_text message_data)
    /\ (forall m e,
          client h = true -> message_data = Live m -> get_sender_id w m = Exn e ->
          out = format_error_text message_data /\ evs = [])
    /\ (forall m,
          client h = true -> message_data = Archived m -> Models.text m = None ->
          out = format_error_text message_data).
Proof.
  unfold _format_output_message. unfold_control.
  destruct (client h); cbn; [destruct message_data as [m | m | type_repr]; cbn |].
  - destruct (get_sender_id w m) as [sender_id | e] eqn:Hsender; cbn;
      [destruct (create_mention w t sender_id (TL.id m)) as [sm | e]; cbn;
       [destruct (TL.chat_id m) as [c |]; cbn;
        [destruct (negb (c =? 0) && negb (TL.is_private m)); cbn;
         [destruct (create_mention w (S t) c (TL.id m)) as [cm | e]; cbn |] |] |] |].
    all: format_leaf.
  - destruct (create_mention w t (Models.from_id m) (Models.id m)) as [sm | e]; cbn;
      [destruct (negb (Models.chat_id m =? 0) && negb (Models.is_private m)); cbn;
       [destruct (create_mention w (S t) (Models.chat_id m) (Models.id m))
          as [cm | e]; cbn |] |].
    all: try (destruct (Models.text m) as [text_content |] eqn:Htext; cbn).
    all: format_leaf.
  - format_leaf.
  - format_leaf.
Qed.

(** ** Decimal renderings and the reply line *)

Lemma lit_cons (a : ascii) (s : string) :
  lit (String a s) = Z.of_N (N_of_ascii a) :: lit s.
Proof. reflexivity. Qed.

Lemma str_int_neg (p : positive) : str_int (Z.neg p) = 45 :: str_int (Z.pos p).
Proof.
  unfold str_int. cbn [Z.to_int NilZero.string_of_int].
  rewrite lit_cons. reflexivity.
Qed.

(** The rendering of a positive number does not start with a minus sign. *)
Lemma str_int_pos_head (p : positive) :
  exists d rest, str_int (Z.pos p) = d :: rest /\ d <> 45.
Proof.
  unfold str_int. cbn [Z.to_int NilZero.string_of_int].
  destruct (Pos.to_uint p); cbn [NilZero.string_of_uint NilEmpty.string_of_uint];
    rewrite lit_cons; eexists _, _; (split; [reflexivity |]); cbn; discriminate.
Qed.

Lemma startswith_app (p s : pystr) : startswith p (p ++ s) = true.
Proof.
  unfold startswith. apply bool_decide_eq_true. apply take_app_length.
Qed.

(** X15.  For a chat id whose rendering is [-100] followed by some digits
    and a non-zero reply id, the reply line carries the link
    [https://t.me/c/<digits>/<reply id>]. *)
Theorem reply_link_of_marked_chat (chat reply : Z) (digits : pystr) :
  reply <> 0 ->
  str_int chat = lit "-100" ++ digits ->
  format_reply (Some chat) (Some reply) =
    [10; 42; 42; 22238; 22797; 58; 42; 42; 32; 96] ++ str_int reply ++ [96]
    ++ [32; 91; 21407; 22987; 28040; 24687; 93; 40]
    ++ lit "https://t.me/c/" ++ digits ++ lit "/" ++ str_int reply ++ lit ")".
Proof.
  intros Hreply Hchat.
  assert (Hr : truthy_int (Some reply) = true) by (apply truthy_int_Some; exact Hreply).
  destruct chat as [| p | p].
  - vm_compute in Hchat. discriminate Hchat.
  - destruct (str_int_pos_head p) as (d & rest & Hp & Hd).
    rewrite Hp in Hchat. rewrite !lit_cons in Hchat. injection Hchat as Hhead _.
    contradiction.
  - assert (Hmarked : startswith (lit "-100") (str_int (Z.neg p)) = true).
    { rewrite Hchat. apply startswith_app. }
    assert (Habs : str_int (Z.pos p) = lit "100" ++ digits).
    { rewrite str_int_neg in Hchat.
      change (lit "-100" ++ digits) with (45 :: (lit "100" ++ digits)) in Hchat.
      congruence. }
    unfold format_reply. rewrite Hr.
    change (truthy_int (Some (Z.neg p))) with true.
    change (Z.abs (Z.neg p)) with (Z.pos p).
    cbv zeta. rewrite Hmarked, Habs, startswith_app.
    change (negb true) with false. cbv iota.
    rewrite drop_app_length'; [reflexivity | reflexivity].
Qed.

Lemma reply_link_of_marked_chat_witness :
  42 <> 0
  /\ str_int (-1001234) = lit "-100" ++ lit "1234"
  /\ format_reply (Some (-1001234)) (Some 42) =
       [10; 42; 42; 22238; 22797; 58; 42; 42; 32; 96] ++ str_int 42 ++ [96]
       ++ [32; 91; 21407; 22987; 28040; 24687; 93; 40]
       ++ lit "https://t.me/c/" ++ lit "1234" ++ lit "/" ++ str_int 42 ++ lit ")".
Proof.
  assert (H1 : 42 <> 0) by lia.
  assert (H2 : str_int (-1001234) = lit "-100" ++ lit "1234") by reflexivity.
  split; [exact H1 |]. split; [exact H2 |].
  exact (reply_link_of_marked_chat (-1001234) 42 (lit "1234") H1 H2).
Defined.

(** X16.  There is no reply line without a reply id or with reply id 0.
    The reply line carries no link when the chat id is unknown or 0, and for
    a positive chat id it carries the plain-group note instead of a link. *)
Theorem reply_line_without_link (chat : option Z) (reply : option Z) :
  (reply = None \/ reply = Some 0 -> format_reply chat reply = [])
  /\ (forall r, reply = Some r -> r <> 0 ->
      (chat = None \/ chat = Some 0 ->
       format_reply chat reply
       = [10; 42; 42; 22238; 22797; 58; 42; 42; 32; 96] ++ str_int r ++ [96])
      /\ (forall c, chat = Some c -> 0 < c ->
          format_reply chat reply
          = [10; 42; 42; 22238; 22797; 58; 42; 42; 32; 96] ++ str_int r ++ [96]
            ++ [32; 40; 26222; 36890; 32676; 32452; 41])).
Proof.
  split.
  - intros [-> | ->]; reflexivity.
  - intros r -> Hr.
    assert (Ht : truthy_int (Some r) = true) by (apply truthy_int_Some; exact Hr).
    split.
    + intros [-> | ->]; unfold format_reply; rewrite Ht; cbn [truthy_int Z.eqb negb];
        rewrite ?app_nil_r; reflexivity.
    + intros c -> Hc. destruct c as [| p | p]; try lia.
      unfold format_reply. rewrite Ht.
      change (truthy_int (Some (Z.pos p))) with true. cbv zeta iota.
      assert (Hplain : startswith (lit "-100") (str_int (Z.pos p)) = false).
      { destruct (str_int_pos_head p) as (d & rest & Hp & Hd). rewrite Hp.
        unfold startswith. apply bool_decide_eq_false.
        rewrite !lit_cons. cbn. intros [= Hhead _]. contradiction. }
      rewrite Hplain. reflexivity.
Qed.

(** ** More on the rate limiter *)









(** ** The sliding window *)

Lemma sorted_snoc (q : list Z) (now : Z) :
  StronglySorted Z.le q -> Forall (fun x => x <= now) q ->
  StronglySorted Z.le (q ++ [now]).
Proof.
  induction 1 as [| x q Hq IH Hx]; intros Hnow; simpl.
  - repeat constructor.
  - apply Forall_cons in Hnow as [Hxn Hqn]. constructor; [apply IH; exact Hqn |].
    apply Forall_app. split; [exact Hx | repeat constructor; exact Hxn].
Qed.

Lemma popleft_while_sorted (cutoff : Z) (q : list Z) :
  StronglySorted Z.le q -> StronglySorted Z.le (popleft_while cutoff q).
Proof.
  induction 1 as [| x q Hq IH Hx]; simpl; [constructor |].
  destruct (x <=? cutoff); [exact IH | constructor; assumption].
Qed.

(** On timestamps in ascending order the eviction loop leaves only what is
    later than the cutoff. *)
Lemma popleft_while_above (cutoff : Z) (q : list Z) :
  StronglySorted Z.le q -> Forall (fun x => cutoff < x) (popleft_while cutoff q).
Proof.
  induction 1 as [| x q Hq IH Hx]; simpl; [constructor |].
  destruct (Z.leb_spec x cutoff) as [Hle | Hlt]; [exact IH |].
  constructor; [exact Hlt |].
  eapply Forall_impl; [exact Hx |]. intros y Hy. simpl in Hy. lia.
Qed.

Section AscendingClock.

Variable h : OutputHandler.
Variable w : World.

Hypothesis clock_monotone :
  forall t1 t2, (t1 <= t2)%nat -> utcnow w t1 <= utcnow w t2.

Lemma ascending_step (s : Store) (t : nat) :
  StronglySorted Z.le (_deletion_timestamps s) ->
  Forall (fun x => x <= utcnow w t) (_deletion_timestamps s) ->
  let '(_, s', evs) := _apply_deletion_rate_limit h w s t in
  StronglySorted Z.le (_deletion_timestamps s')
  /\ Forall (fun x => x <= utcnow w (length evs + t)) (_deletion_timestamps s').
Proof.
  intros Hsorted Hpast. rewrite gate_step. cbv zeta.
  assert (Hlater : forall t', (t <= t')%nat ->
            Forall (fun x => x <= utcnow w t') (recorded h s (utcnow w t))).
  { intros t' Ht. specialize (clock_monotone t t' Ht).
    apply recorded_Forall; [| lia].
    eapply Forall_impl; [exact Hpast |]. intros x Hx. simpl in Hx. lia. }
  assert (Hrec : StronglySorted Z.le (recorded h s (utcnow w t))).
  { unfold recorded. apply sorted_snoc.
    - apply popleft_while_sorted. exact Hsorted.
    - apply popleft_while_Forall. exact Hpast. }
  destruct (in_cooldown s (utcnow w t)).
  - split; [exact Hsorted |].
    specialize (clock_monotone t (length [EvNow (utcnow w t)] + t)%nat).
    eapply Forall_impl; [exact Hpast |]. intros x Hx. simpl in *. lia.
  - destruct (deletion_rate_limit_threshold h <? _); simpl;
      (split; [exact Hrec | apply Hlater; lia]).
Qed.

Lemma ascending_run (n : nat) (s : Store) (t : nat) :
  StronglySorted Z.le (_deletion_timestamps s) ->
  Forall (fun x => x <= utcnow w t) (_deletion_timestamps s) ->
  let '(_, s', evs) := allow_calls h n w s t in
  StronglySorted Z.le (_deletion_timestamps s')
  /\ Forall (fun x => x <= utcnow w (length evs + t)) (_deletion_timestamps s').
Proof.
  revert s t. induction n as [| n IH]; intros s t Hsorted Hpast.
  - rewrite allow_calls_O. split; assumption.
  - rewrite allow_calls_S.
    pose proof (ascending_step s t Hsorted Hpast) as Hstep.
    destruct (gate_returns h w s t) as (b & s1 & e1 & Hgate).
    rewrite Hgate in Hstep |- *. destruct Hstep as [Hs1 Hp1].
    specialize (IH s1 (length e1 + t)%nat Hs1 Hp1).
    destruct (allow_calls h n w s1 (length e1 + t)%nat) as [[rs s2] e2].
    rewrite length_app.
    replace (length e1 + length e2 + t)%nat with (length e2 + (length e1 + t))%nat
      by lia.
    exact IH.
Qed.

End AscendingClock.

(** X19.  Under a clock that never runs backwards and a positive window,
    the timestamps are held in ascending order after every run of calls from
    the initial state, and after a call that is not refused by a running
    pause each of them lies within the window that ends at the clock reading
    of that call. *)
Theorem timestamps_stay_within_window (h : OutputHandler) (w : World) (n : nat)
    (t : nat) :
  0 < deletion_rate_limit_window h ->
  (forall t1 t2, (t1 <= t2)%nat -> utcnow w t1 <= utcnow w t2) ->
  let '(_, s1, e1) := allow_calls h n w initial_store t in
  let t1 := (length e1 + t)%nat in
  let '(_, s2, _) := _apply_deletion_rate_limit h w s1 t1 in
  StronglySorted Z.le (_deletion_timestamps s2)
  /\ (in_cooldown s1 (utcnow w t1) = false ->
      Forall (fun x => utcnow w t1 - deletion_rate_limit_window h < x <= utcnow w t1)
        (_deletion_timestamps s2)).
Proof.
  intros Hwindow Hclock.
  pose proof (ascending_run h w Hclock n initial_store t) as Hrun.
  destruct (allow_calls h n w initial_store t) as [[rs s1] e1].
  destruct Hrun as [Hsorted Hpast]; [constructor | constructor |].
  cbv zeta.
  pose proof (ascending_step h w Hclock s1 (length e1 + t)%nat Hsorted Hpast) as Hstep.
  rewrite gate_step in Hstep |- *. cbv zeta in Hstep |- *.
  assert (Hin : Forall (fun x => utcnow w (length e1 + t)
                                 - deletion_rate_limit_window h < x
                                 <= utcnow w (length e1 + t))
                  (recorded h s1 (utcnow w (length e1 + t)))).
  { unfold recorded. apply Forall_app. split.
    - pose proof (popleft_while_above
                    (utcnow w (length e1 + t) - deletion_rate_limit_window h)
                    (_deletion_timestamps s1) Hsorted) as Habove.
      pose proof (popleft_while_Forall (fun x => x <= utcnow w (length e1 + t))
                    (utcnow w (length e1 + t) - deletion_rate_limit_window h)
                    (_deletion_timestamps s1) Hpast) as Hbelow.
      rewrite Forall_forall in Habove, Hbelow |- *.
      intros x Hx. split; [apply Habove | apply Hbelow]; exact Hx.
    - repeat constructor; lia. }
  destruct (in_cooldown s1 (utcnow w (length e1 + t))).
  - split; [exact Hsorted | intros Hcool; discriminate Hcool].
  - destruct (deletion_rate_limit_threshold h <? _); simpl in *;
      (split; [apply Hstep | intros _; exact Hin]).
Qed.

Lemma timestamps_stay_within_window_witness :
  0 < deletion_rate_limit_window patient_handler
  /\ (forall t1 t2, (t1 <= t2)%nat -> utcnow calm_world t1 <= utcnow calm_world t2)
  /\ let '(_, s1, e1) := allow_calls patient_handler 8 calm_world initial_store 0%nat in
     let t1 := (length e1 + 0)%nat in
     let '(_, s2, _) := _apply_deletion_rate_limit patient_handler calm_world s1 t1 in
     StronglySorted Z.le (_deletion_timestamps s2)
     /\ (in_cooldown s1 (utcnow calm_world t1) = false ->
         Forall (fun x => utcnow calm_world t1
                          - deletion_rate_limit_window patient_handler
                          < x <= utcnow calm_world t1)
           (_deletion_timestamps s2)).
Proof.
  assert (H1 : 0 < deletion_rate_limit_window patient_handler) by reflexivity.
  split; [exact H1 |]. split; [exact calm_clock_monotone |].
  exact (timestamps_stay_within_window patient_handler calm_world 8 0%nat H1
           calm_clock_monotone).
Defined.

(** ** Events the filters reject *)

(** X21.  An event that the filter of its kind does not accept, be it
    that the filter says no or that it fails, and an event of another kind
    leave no trace: [process] returns [None] without any collaborator call
    and with the store as it was. *)
Theorem only_accepted_events_act (h : OutputHandler) (w : World) (s : Store)
    (t : nat) (event : InboundEvent) :
  match event with
  | NewMessage e | MessageEdited e => _should_forward h w e <> Ok true
  | MessageDeleted e => _should_log_deletion h e <> Ok true
  | OtherEvent _ => True
  end ->
  process h event w s t = (Ok None, s, []).
Proof.
  intros Hrule. unfold process. unfold_control.
  destruct (helpers_ready h); cbn; [| reflexivity].
  destruct event as [e | e | e | name]; cbn.
  - unfold _process_new_message. unfold_control.
    destruct (_should_forward h w e) as [[|] | err]; [congruence | |]; cbn.
    + destruct (message e); reflexivity.
    + reflexivity.
  - unfold _process_new_message. unfold_control.
    destruct (_should_forward h w e) as [[|] | err]; [congruence | |]; cbn.
    + destruct (message e); reflexivity.
    + reflexivity.
  - unfold _process_deleted_message. unfold_control.
    destruct (_should_log_deletion h e) as [[|] | err]; [congruence | |]; reflexivity.
  - reflexivity.
Qed.

Lemma only_accepted_events_act_witness :
  _should_forward sample_handler calm_world {| message := Some outgoing_message |}
  <> Ok true
  /\ process sample_handler (NewMessage {| message := Some outgoing_message |})
       calm_world initial_store 0%nat
     = (Ok None, initial_store, []).
Proof.
  assert (H : _should_forward sample_handler calm_world
                {| message := Some outgoing_message |} <> Ok true)
    by (intros H; vm_compute in H; discriminate H).
  split; [exact H |].
  exact (only_accepted_events_act sample_handler calm_world initial_store 0%nat
           (NewMessage {| message := Some outgoing_message |}) H).
Defined.

(** X22.  New messages, edited messages and events of other kinds never
    move the rate limiter: [process] leaves the timestamps and the pause as
    they were and does not read the clock. *)
Theorem limiter_moves_on_deletions_only (h : OutputHandler) (w : World)
    (s : Store) (t : nat) (event : InboundEvent) :
  (forall e, event <> MessageDeleted e) ->
  let '(_, s', evs) := process h event w s t in
  _deletion_timestamps s' = _deletion_timestamps s
  /\ _rate_limit_paused_until s' = _rate_limit_paused_until s
  /\ count is_clock_read evs = 0%nat.
Proof.
  intros Hkind. unfold process. unfold_control.
  destruct (helpers_ready h) eqn:Hready; cbn; [| auto].
  assert (Hmentions : forall evs, forallb is_mention evs = true ->
                                  count is_clock_read evs = 0%nat).
  { intros evs. apply (count_zero_of_forallb is_mention).
    intros [] He; try discriminate He; reflexivity. }
  destruct event as [e | e | e | name]; cbn.
  - unfold _process_new_message. unfold_control.
    destruct (_should_forward h w e) as [[|] | err]; cbn; [| | auto].
    + destruct (message e) as [m |]; cbn; [| auto].
      destruct (format_output_message_returns h label_new (Live m) false w s t)
        as (out & evs1 & Hformat & Hevs1 & _).
      rewrite Hformat.
      destruct (delivery_discipline h w s (length evs1 + t)%nat out m Hready)
        as (s' & evs2 & Hrun & _ & Hq & Hp & _ & _ & _ & _ & Hclock).
      rewrite Hrun. cbn. rewrite ?app_nil_r, count_app, (Hmentions evs1 Hevs1), Hclock.
      auto.
    + destruct (message e); cbn; auto.
  - unfold _process_new_message. unfold_control.
    destruct (_should_forward h w e) as [[|] | err]; cbn; [| | auto].
    + destruct (message e) as [m |]; cbn; [| auto].
      destruct (format_output_message_returns h label_new (Live m) false w s t)
        as (out & evs1 & Hformat & Hevs1 & _).
      rewrite Hformat.
      destruct (delivery_discipline h w s (length evs1 + t)%nat out m Hready)
        as (s' & evs2 & Hrun & _ & Hq & Hp & _ & _ & _ & _ & Hclock).
      rewrite Hrun. cbn. rewrite ?app_nil_r, count_app, (Hmentions evs1 Hevs1), Hclock.
      auto.
    + destruct (message e); cbn; auto.
  - exfalso. apply (Hkind e). reflexivity.
  - auto.
Qed.

Lemma limiter_moves_on_deletions_only_witness :
  (forall e, NewMessage {| message := Some photo_message |} <> MessageDeleted e)
  /\ let '(_, s', evs) :=
       process sample_handler (NewMessage {| message := Some photo_message |})
         calm_world initial_store 0%nat in
     _deletion_timestamps s' = _deletion_timestamps initial_store
     /\ _rate_limit_paused_until s' = _rate_limit_paused_until initial_store
     /\ count is_clock_read evs = 0%nat.
Proof.
  assert (H : forall e,
             NewMessage {| message := Some photo_message |} <> MessageDeleted e)
    by (intros e; discriminate).
  split; [exact H |].
  exact (limiter_moves_on_deletions_only sample_handler calm_world initial_store
           0%nat (NewMessage {| message := Some photo_message |}) H).
Defined.

(** ** The configured lists *)

(** The sample handlers are what [__init__] builds; a window of a thousand
    million days is more than a duration can hold. *)
Example init_samples :
  init_default (-1001) {[ 13 ]} (Some [7]) (Some [-1002]) = Some sample_handler
  /\ init (-1001) {[ 13 ]} (Some [7]) (Some [-1002]) 2 5 10 = Some patient_handler
  /\ init (-1001) {[ 13 ]} None (Some []) 5 10 5 = Some listless_handler
  /\ init (-1001) {[ 13 ]} None None 5 (86400 * 999999999 + 86399) 5 <> None
  /\ init (-1001) {[ 13 ]} None None 5 (86400 * 1000000000) 5 = None
  /\ init (-1001) {[ 13 ]} None None 5 10 (-86400 * 999999999 - 1) = None.
Proof. split_and!; try reflexivity. discriminate. Qed.

Lemma ids_of_list (l : list Z) :
  match Some l with
  | Some (x :: l') => list_to_set (x :: l')
  | _ => (∅ : gset Z)
  end = list_to_set l.
Proof. destruct l; reflexivity. Qed.

(** X23.  The handler depends on the members of the two forward lists
    only: lists with the same members, in any order and multiplicity, give
    the same handler. *)
Theorem forward_lists_are_sets (log_chat : Z) (ignored : gset Z)
    (users1 users2 groups1 groups2 : list Z) (threshold window pause : Z) :
  (forall x, In x users1 <-> In x users2) ->
  (forall x, In x groups1 <-> In x groups2) ->
  init log_chat ignored (Some users1) (Some groups1) threshold window pause
  = init log_chat ignored (Some users2) (Some groups2) threshold window pause.
Proof.
  intros Husers Hgroups. unfold init.
  destruct (timedelta window) as [window' |]; [| reflexivity].
  destruct (timedelta pause) as [pause' |]; [| reflexivity].
  unfold configured. rewrite !ids_of_list.
  assert (Hset : forall l1 l2 : list Z,
             (forall x, In x l1 <-> In x l2) ->
             (list_to_set l1 : gset Z) = list_to_set l2).
  { intros l1 l2 H. apply set_eq. intros x.
    rewrite !elem_of_list_to_set, !list_elem_of_In. apply H. }
  rewrite (Hset users1 users2 Husers), (Hset groups1 groups2 Hgroups).
  reflexivity.
Qed.

Lemma forward_lists_are_sets_witness :
  (forall x, In x [7; 9; 7] <-> In x [9; 7])
  /\ (forall x, In x [-1002] <-> In x [-1002; -1002])
  /\ init (-1001) ∅ (Some [7; 9; 7]) (Some [-1002]) 5 10 5
     = init (-1001) ∅ (Some [9; 7]) (Some [-1002; -1002]) 5 10 5.
Proof.
  assert (H1 : forall x, In x [7; 9; 7] <-> In x [9; 7]) by (simpl; tauto).
  assert (H2 : forall x, In x [-1002] <-> In x [-1002; -1002]) by (simpl; tauto).
  split; [exact H1 |]. split; [exact H2 |].
  exact (forward_lists_are_sets (-1001) ∅ [7; 9; 7] [9; 7] [-1002] [-1002; -1002]
           5 10 5 H1 H2).
Defined.

(** X24.  A handler built without forward lists, or with empty ones,
    forwards no new or edited message and logs no deletion event of
    Telethon's class: with a chat id the event is in no forwarded group, and
    without one the logging rule fails on it. *)
Theorem no_forward_lists_no_forwarding (log_chat : Z) (ignored : gset Z)
    (users groups : option (list Z)) (threshold window pause : Z)
    (h : OutputHandler) (w : World) (ev : MessageEvent) (deletion : DeletedEvent) :
  users = None \/ users = Some [] ->
  groups = None \/ groups = Some [] ->
  init log_chat ignored users groups threshold window pause = Some h ->
  peer deletion = None ->
  _should_forward h w ev <> Ok true
  /\ _should_log_deletion h deletion <> Ok true.
Proof.
  intros Husers Hgroups Hinit Hpeer.
  unfold init in Hinit.
  destruct (timedelta window) as [window' |]; [| discriminate Hinit].
  destruct (timedelta pause) as [pause' |]; [| discriminate Hinit].
  injection Hinit as <-.
  set (h := configured log_chat ignored users groups threshold window' pause').
  assert (Hu : forward_user_ids h = ∅) by (destruct Husers as [-> | ->]; reflexivity).
  assert (Hg : forward_group_ids h = ∅) by (destruct Hgroups as [-> | ->]; reflexivity).
  assert (Hempty : forall x, mem x (∅ : gset Z) = false).
  { intros x. apply mem_false. apply not_elem_of_empty. }
  split.
  - unfold _should_forward. rewrite Hu, Hg.
    destruct (message ev) as [m |]; [| discriminate].
    destruct (get_sender_id w m) as [sender_id | e]; [| discriminate].
    destruct (mem sender_id (ignored_ids h)); [discriminate |].
    destruct (truthy_int (TL.chat_id m) && mem_opt (TL.chat_id m) (ignored_ids h));
      [discriminate |].
    rewrite Hempty, andb_false_r.
    assert (Hopt : mem_opt (TL.chat_id m) ∅ = false)
      by (destruct (TL.chat_id m); [apply Hempty | reflexivity]).
    rewrite Hopt, andb_false_r. discriminate.
  - unfold _should_log_deletion, resolved_chat_id. rewrite Hg, Hpeer.
    destruct (chat_id deletion) as [c |]; [| discriminate].
    cbn [mem_opt is_some negb]. rewrite Hempty, andb_false_r.
    destruct (truthy_int (Some c) && mem c (ignored_ids h)); discriminate.
Qed.

Lemma no_forward_lists_no_forwarding_witness :
  (@None (list Z) = None \/ @None (list Z) = Some [])
  /\ (Some [] = @None (list Z) \/ Some [] = Some (@nil Z))
  /\ init (-1001) {[ 13 ]} None (Some []) 5 10 5 = Some listless_handler
  /\ peer group_deletion = None
  /\ _should_forward listless_handler calm_world
       {| message := Some (plain_message 7 (lit "hi")) |} <> Ok true
  /\ _should_log_deletion listless_handler group_deletion <> Ok true.
Proof.
  split; [left; reflexivity |]. split; [right; reflexivity |].
  split; [reflexivity |]. split; [reflexivity |].
  exact (no_forward_lists_no_forwarding (-1001) {[ 13 ]} None (Some []) 5 10 5
           listless_handler calm_world
           {| message := Some (plain_message 7 (lit "hi")) |} group_deletion
           (or_introl eq_refl) (or_intror eq_refl) eq_refl eq_refl).
Defined.
